(** * scripts/setup.py: configuration renderer for the Spark environment

    A shallow embedding of the setup script: the YAML value it reads, the
    two f-string templates it renders, the files and directories it touches
    and the try/except of [main], followed by the properties of the
    generated artefacts. *)

From Stdlib Require Import ZArith Ascii String DecimalString.
From stdpp Require Import gmap strings list fin_maps.

(** ** Text

    Python text is held as its UTF-8 bytes.  Every character the script
    tests for (newline, dot, slash) is ASCII, so working on bytes or on code
    points gives the same result. *)

Definition LF : ascii := ascii_of_nat 10.
Definition nl : string := String LF EmptyString.
Definition dq : string := String (ascii_of_nat 34) EmptyString.

(** A triple-quoted literal that ends with a line break: every line is
    followed by a newline. *)
Fixpoint unlines (ls : list string) : string :=
  match ls with
  | [] => EmptyString
  | l :: ls' => l +:+ nl +:+ unlines ls'
  end.

(** [str.split(sep)] for a one-character separator. *)
Fixpoint split_on (sep : ascii) (s : string) : list string :=
  match s with
  | EmptyString => [EmptyString]
  | String c s' =>
      if Ascii.eqb c sep then EmptyString :: split_on sep s'
      else match split_on sep s' with
           | [] => [String c EmptyString]
           | w :: ws => String c w :: ws
           end
  end.

Fixpoint mem_char (c : ascii) (chars : string) : bool :=
  match chars with
  | EmptyString => false
  | String d chars' => Ascii.eqb c d || mem_char c chars'
  end.

(** [str.lstrip(chars)]: drops every leading character that occurs in
    [chars]; the argument is a set of characters, not a prefix. *)
Fixpoint lstrip (chars : string) (s : string) : string :=
  match s with
  | EmptyString => EmptyString
  | String c s' => if mem_char c chars then lstrip chars s' else s
  end.



(** ** The Configuration: what [yaml.safe_load] returns *)

(** [VOther] stands for an object of any other type the loader can build
    (a float, a timestamp, a sequence, a set), kept as the text [str()]
    gives for it: none of them can be indexed with a [str] key and none has
    an [lstrip].  A mapping keeps its [str] keys only: a key of another type
    never compares equal to the literals the script indexes with.  The
    items are in insertion order, each key once; a lookup takes the first
    item with the key. *)
#[warnings="-register-all"]
Inductive value :=
| VNone
| VBool (b : bool)
| VInt (z : Z)
| VStr (s : string)
| VOther (text : string)
| VDict (items : list (string * value)).

Abbreviation path := (list string).

Inductive exn :=
| KeyError (key : string)
| TypeError (v : value)
| AttributeError (v : value)
| YAMLError (msg : string)
| FileNotFoundError (p : path)
| NotADirectoryError (p : path)
| IsADirectoryError (p : path)
| FileExistsError (p : path).

Definition is_FileNotFoundError (e : exn) : bool :=
  match e with FileNotFoundError _ => true | _ => false end.

(** What the script takes from its surroundings: the directory above
    [scripts/] (as the components of an absolute path), the YAML parser, and
    the texts the interpreter gives for a mapping and for an exception. *)
Class Runtime := {
  base_dir : path;
  safe_load : string -> string + value;
  str_dict : list (string * value) -> string;
  str_exn : exn -> string
}.

(** ** Fallible expressions *)

Definition result (A : Type) : Type := exn + A.

#[global] Instance result_ret : MRet result := fun A x => inr x.
#[global] Instance result_bind : MBind result := fun A B f m =>
  match m with inl e => inl e | inr x => f x end.

Fixpoint assoc (k : string) (items : list (string * value)) : option value :=
  match items with
  | [] => None
  | (k', v) :: items' => if String.eqb k k' then Some v else assoc k items'
  end.

(** [v[k]] *)
Definition getitem (v : value) (k : string) : result value :=
  match v with
  | VDict items =>
      match assoc k items with
      | Some x => inr x
      | None => inl (KeyError k)
      end
  | _ => inl (TypeError v)
  end.

(** [config[k1][k2]...] *)
Fixpoint index (v : value) (keys : list string) : result value :=
  match keys with
  | [] => inr v
  | k :: ks => v' ← getitem v k; index v' ks
  end.

Definition str_int (z : Z) : string := NilZero.string_of_int (Z.to_int z).

(** A piece of an f-string: literal text, or [{config[k1][k2]...}]. *)
Inductive part :=
| Lit (s : string)
| Sub (keys : list string).

(** ** The filesystem

    A store maps the absolute path of every existing entry, as the list of
    its components, to what is there; the root always exists. *)

Inductive node :=
| File (content : string)
| Dir.

Abbreviation store := (gmap path node).

Definition parent (p : path) : path := removelast p.

Definition node_at (fs : store) (p : path) : option node :=
  match p with
  | [] => Some Dir
  | _ => fs !! p
  end.

Inductive errno := ENOENT | ENOTDIR.

Definition os_error (e : errno) (p : path) : exn :=
  match e with
  | ENOENT => FileNotFoundError p
  | ENOTDIR => NotADirectoryError p
  end.

(** Path resolution: every component but the last is looked up in turn and
    has to be a directory; [..] steps to the parent.  The result is the
    canonical path of the target, which itself need not exist. *)
Fixpoint walk (fs : store) (cur : path) (rest : list string) : errno + path :=
  match rest with
  | [] => inr cur
  | c :: rest' =>
      match node_at fs cur with
      | None => inl ENOENT
      | Some (File _) => inl ENOTDIR
      | Some Dir =>
          walk fs (if String.eqb c ".." then parent cur else cur ++ [c]) rest'
      end
  end.

Definition resolve (fs : store) (p : path) : errno + path := walk fs [] p.

Definition file_text (fs : store) (q : path) : string :=
  match fs !! q with
  | Some (File c) => c
  | _ => EmptyString
  end.

(** [PurePath] parsing of a relative or absolute path string: empty and
    single-dot components are dropped, [..] is kept. *)
Definition parts (s : string) : list string :=
  List.filter (fun c => negb (String.eqb c EmptyString || String.eqb c "."))
    (split_on "/" s).

(** [p / s] *)
Definition joinpath (p : path) (s : string) : path :=
  match s with
  | String "/" _ => parts s
  | _ => p ++ parts s
  end.

(** [p.name] *)
Definition name (p : path) : string := List.last p EmptyString.

(** ** Effects: a store, a trace of what was done, and exceptions *)

Inductive mode := R | W.

Inductive event :=
| EvPrint (line : string)
| EvOpen (p : path) (m : mode)
| EvWrite (p : path) (text : string)
| EvClose (p : path)
| EvMkdir (p : path).

Record outcome (A : Type) := Outcome {
  result_of : result A;
  files : store;
  trace : list event
}.
Arguments Outcome {A} _ _ _.
Arguments result_of {A} _.
Arguments files {A} _.
Arguments trace {A} _.

Definition M (A : Type) : Type := store -> outcome A.

#[global] Instance M_ret : MRet M := fun A x fs => Outcome (inr x) fs [].
#[global] Instance M_bind : MBind M := fun A B f m fs =>
  let o := m fs in
  match result_of o with
  | inl e => Outcome (inl e) (files o) (trace o)
  | inr x =>
      let o' := f x (files o) in
      Outcome (result_of o') (files o') (trace o ++ trace o')
  end.

Definition lift {A} (r : result A) : M A := fun fs => Outcome r fs [].

Definition raise {A} (e : exn) : M A := lift (inl e).

Definition emit (ev : event) : M unit := fun fs => Outcome (inr tt) fs [ev].

Definition print (line : string) : M unit := emit (EvPrint line).

(** [try: body / except Exception as e: handler e] *)
Definition try_except {A} (body : M A) (handler : exn -> M A) : M A := fun fs =>
  let o := body fs in
  match result_of o with
  | inr _ => o
  | inl e =>
      let o' := handler e (files o) in
      Outcome (result_of o') (files o') (trace o ++ trace o')
  end.

(** [open(p, 'r')] and [open(p, 'w')]; the handle is the resolved path.
    Opening for writing creates the file or empties it. *)
Definition open (p : path) (m : mode) : M path := fun fs =>
  match resolve fs p with
  | inl e => Outcome (inl (os_error e p)) fs []
  | inr q =>
      match m, node_at fs q with
      | _, Some Dir => Outcome (inl (IsADirectoryError p)) fs []
      | R, None => Outcome (inl (FileNotFoundError p)) fs []
      | R, Some (File _) => Outcome (inr q) fs [EvOpen q R]
      | W, _ => Outcome (inr q) (<[q := File EmptyString]> fs) [EvOpen q W]
      end
  end.

Definition read (f : path) : M string := fun fs =>
  Outcome (inr (file_text fs f)) fs [].

Definition write (f : path) (text : string) : M unit := fun fs =>
  Outcome (inr tt) (<[f := File (file_text fs f +:+ text)]> fs) [EvWrite f text].

(** Leaving a [with] block closes the file, whether the block returns or
    raises. *)
Definition closing {A} (f : path) (body : M A) : M A := fun fs =>
  let o := body fs in
  Outcome (result_of o) (files o) (trace o ++ [EvClose f]).

(** [with open(p, m) as f: body f] *)
Definition with_open {A} (p : path) (m : mode) (body : path -> M A) : M A :=
  f ← open p m; closing f (body f).

(** [p.mkdir(exist_ok=True)]: [parents] is left at [False], so a missing
    parent raises; an existing directory is accepted, an existing file is
    not. *)
Definition mkdir_exist_ok (p : path) : M unit := fun fs =>
  match resolve fs p with
  | inl e => Outcome (inl (os_error e p)) fs []
  | inr q =>
      match node_at fs q with
      | None => Outcome (inr tt) (<[q := Dir]> fs) [EvMkdir q]
      | Some Dir => Outcome (inr tt) fs []
      | Some (File _) => Outcome (inl (FileExistsError p)) fs []
      end
  end.

(** [v.lstrip(chars)] *)
Definition str_lstrip (v : value) (chars : string) : result string :=
  match v with
  | VStr s => inr (lstrip chars s)
  | _ => inl (AttributeError v)
  end.

(** ** Rendering *)

Section Script.
Context `{Runtime}.

(** [format(v, '')], what an f-string puts for [{v}]. *)
Definition py_str (v : value) : string :=
  match v with
  | VNone => "None"
  | VBool true => "True"
  | VBool false => "False"
  | VInt z => str_int z
  | VStr s => s
  | VOther text => text
  | VDict items => str_dict items
  end.

(** The replacement fields are evaluated from left to right; the first one
    that raises ends the evaluation. *)
Fixpoint fline (config : value) (ps : list part) : result string :=
  match ps with
  | [] => inr EmptyString
  | Lit s :: ps' => r ← fline config ps'; inr (s +:+ r)
  | Sub keys :: ps' =>
      v ← index config keys; r ← fline config ps'; inr (py_str v +:+ r)
  end.

Fixpoint flines (config : value) (tpl : list (list part)) : result (list string) :=
  match tpl with
  | [] => inr []
  | l :: tpl' => s ← fline config l; r ← flines config tpl'; inr (s :: r)
  end.

Definition fstring (config : value) (tpl : list (list part)) : result string :=
  ls ← flines config tpl; inr (unlines ls).

(** The literal of [generate_env_file], one entry per line. *)
Definition env_template : list (list part) :=
  [ [Lit "# Auto-generated from config/config.yaml"];
    [Lit "# Spark Configuration"];
    [Lit "SPARK_VERSION="; Sub ["spark"; "version"]];
    [Lit "SPARK_MASTER_MEMORY="; Sub ["spark"; "master"; "memory"]];
    [Lit "SPARK_MASTER_CORES="; Sub ["spark"; "master"; "cores"]];
    [Lit "SPARK_WORKER_MEMORY="; Sub ["spark"; "worker"; "memory"]];
    [Lit "SPARK_WORKER_CORES="; Sub ["spark"; "worker"; "cores"]];
    [Lit "SPARK_WORKER_INSTANCES="; Sub ["spark"; "worker"; "instances"]];
    [Lit "SPARK_EXECUTOR_MEMORY="; Sub ["spark"; "executor"; "memory"]];
    [Lit "SPARK_EXECUTOR_CORES="; Sub ["spark"; "executor"; "cores"]];
    [];
    [Lit "# Python Configuration"];
    [Lit "PYTHON_VERSION="; Sub ["python"; "version"]];
    [];
    [Lit "# Container Ports"];
    [Lit "JUPYTER_PORT="; Sub ["containers"; "jupyter"; "port"]];
    [Lit "SPARK_MASTER_UI_PORT="; Sub ["containers"; "spark_master"; "ui_port"]];
    [Lit "SPARK_MASTER_PORT="; Sub ["containers"; "spark_master"; "port"]];
    [Lit "SPARK_WORKER_UI_PORT="; Sub ["containers"; "spark_worker"; "ui_port"]];
    [];
    [Lit "# Volume Paths"];
    [Lit "NOTEBOOKS_PATH="; Sub ["volumes"; "notebooks_path"]];
    [Lit "DATA_PATH="; Sub ["volumes"; "data_path"]];
    [];
    [Lit "# Network"];
    [Lit "NETWORK_NAME="; Sub ["network"; "name"]] ].

Definition env_content (config : value) : result string :=
  fstring config env_template.

(** The literal of [generate_docker_compose]; [network_name] is the only
    replacement field, [${{] and [}}] are the escapes of [${] and [}]. *)
Definition compose_lines (network_name : value) : list string :=
  [ "# Configuration-driven Spark environment";
    "services:";
    "  spark-master:";
    "    image: bitnami/spark:${SPARK_VERSION:-3.5.0}";
    "    container_name: spark-master";
    "    environment:";
    "      - SPARK_MODE=master";
    "      - SPARK_RPC_AUTHENTICATION_ENABLED=no";
    "      - SPARK_RPC_ENCRYPTION_ENABLED=no";
    "      - SPARK_LOCAL_STORAGE_ENCRYPTION_ENABLED=no";
    "      - SPARK_SSL_ENABLED=no";
    "      - SPARK_USER=spark";
    "    ports:";
    "      - " +:+ dq +:+ "${SPARK_MASTER_UI_PORT:-8080}:8080" +:+ dq;
    "      - " +:+ dq +:+ "${SPARK_MASTER_PORT:-7077}:7077" +:+ dq;
    "    volumes:";
    "      - ../${NOTEBOOKS_PATH:-./notebooks}:/opt/notebooks";
    "      - ../${DATA_PATH:-./data}:/opt/data";
    "      - ../${DATA_PATH:-./data}:/home/jovyan/data";
    "    networks:";
    "      - " +:+ py_str network_name;
    EmptyString;
    "  spark-worker:";
    "    image: bitnami/spark:${SPARK_VERSION:-3.5.0}";
    "    container_name: spark-worker";
    "    environment:";
    "      - SPARK_MODE=worker";
    "      - SPARK_MASTER_URL=spark://spark-master:7077";
    "      - SPARK_WORKER_MEMORY=${SPARK_WORKER_MEMORY:-2g}";
    "      - SPARK_WORKER_CORES=${SPARK_WORKER_CORES:-2}";
    "      - SPARK_RPC_AUTHENTICATION_ENABLED=no";
    "      - SPARK_RPC_ENCRYPTION_ENABLED=no";
    "      - SPARK_LOCAL_STORAGE_ENCRYPTION_ENABLED=no";
    "      - SPARK_SSL_ENABLED=no";
    "      - SPARK_USER=spark";
    "    ports:";
    "      - " +:+ dq +:+ "${SPARK_WORKER_UI_PORT:-8081}:8081" +:+ dq;
    "    volumes:";
    "      - ../${NOTEBOOKS_PATH:-./notebooks}:/opt/notebooks";
    "      - ../${DATA_PATH:-./data}:/opt/data";
    "      - ../${DATA_PATH:-./data}:/home/jovyan/data";
    "    depends_on:";
    "      - spark-master";
    "    networks:";
    "      - " +:+ py_str network_name;
    "    deploy:";
    "      replicas: ${SPARK_WORKER_INSTANCES:-1}";
    EmptyString;
    "  jupyter:";
    "    build: ";
    "      context: ..";
    "      dockerfile: docker/Dockerfile";
    "      args:";
    "        PYTHON_VERSION: ${PYTHON_VERSION:-3.11}";
    "    container_name: jupyter-pyspark";
    "    environment:";
    "      - JUPYTER_ENABLE_LAB=yes";
    "      - SPARK_MASTER_URL=spark://spark-master:7077";
    "      - PYSPARK_SUBMIT_ARGS=--master spark://spark-master:7077 --executor-memory ${SPARK_EXECUTOR_MEMORY:-1g} --executor-cores ${SPARK_EXECUTOR_CORES:-1} pyspark-shell";
    "    ports:";
    "      - " +:+ dq +:+ "${JUPYTER_PORT:-8888}:8888" +:+ dq;
    "    volumes:";
    "      - ../${NOTEBOOKS_PATH:-./notebooks}:/home/jovyan/notebooks";
    "      - ../${DATA_PATH:-./data}:/home/jovyan/data";
    "      - ../${DATA_PATH:-./data}:/opt/data";
    "    depends_on:";
    "      - spark-master";
    "      - spark-worker";
    "    networks:";
    "      - " +:+ py_str network_name;
    EmptyString;
    "networks:";
    "  " +:+ py_str network_name +:+ ":";
    "    driver: bridge";
    EmptyString;
    "volumes:";
    "  notebooks:";
    "  data:" ].

Definition compose_content (network_name : value) : string :=
  unlines (compose_lines network_name).

(** ** The script *)

Definition config_yaml : path :=
  joinpath (joinpath base_dir "config") "config.yaml".

Definition env_file : path :=
  joinpath (joinpath base_dir "config") ".env".

Definition compose_file : path :=
  joinpath (joinpath base_dir "docker") "docker-compose.yml".

Definition load_config : M value :=
  with_open config_yaml R (fun f =>
    text ← read f;
    match safe_load text with
    | inl msg => raise (YAMLError msg)
    | inr config => mret config
    end).

Definition generate_env_file (config : value) : M unit :=
  content ← lift (env_content config);
  with_open env_file W (fun f => write f content);;
  print "✅ Generated config/.env file".

Definition generate_docker_compose (config : value) : M unit :=
  network_name ← lift (index config ["network"; "name"]);
  with_open compose_file W (fun f => write f (compose_content network_name));;
  print "✅ Generated docker/docker-compose.yml".

Definition target_dir (s : string) : path := joinpath base_dir (lstrip "./" s).

Definition create_directories (config : value) : M unit :=
  nb ← lift (v ← index config ["volumes"; "notebooks_path"]; str_lstrip v "./");
  let notebooks_path := joinpath base_dir nb in
  dt ← lift (v ← index config ["volumes"; "data_path"]; str_lstrip v "./");
  let data_path := joinpath base_dir dt in
  mkdir_exist_ok notebooks_path;;
  mkdir_exist_ok data_path;;
  print ("✅ Created directories: " +:+ name notebooks_path +:+ ", "
         +:+ name data_path).

Definition closing_lines : list string :=
  [ nl +:+ "🎉 Setup complete! Run the following commands:";
    "1. docker compose -f docker/docker-compose.yml --env-file config/.env up -d";
    "2. Open http://localhost:8888 for Jupyter Lab";
    "3. Open http://localhost:8080 for Spark Master UI";
    nl +:+ "📝 To modify configuration:";
    "1. Edit config/config.yaml";
    "2. Run: python scripts/setup.py";
    "3. Run: docker compose -f docker/docker-compose.yml --env-file config/.env up -d --build";
    nl +:+ "📦 Python packages are read directly from config/config.yaml - no requirements.txt needed!" ].

Fixpoint print_all (ls : list string) : M unit :=
  match ls with
  | [] => mret tt
  | l :: ls' => print l;; print_all ls'
  end.

(** The body of the [try] of [main]. *)
Definition main_try : M unit :=
  config ← load_config;
  print "✅ Loaded config/config.yaml";;
  generate_env_file config;;
  generate_docker_compose config;;
  create_directories config;;
  print_all closing_lines.

Definition not_found_line : string :=
  "❌ config/config.yaml not found! Please create it first.".

Definition main_except (e : exn) : M unit :=
  if is_FileNotFoundError e then print not_found_line
  else print ("❌ Error: " +:+ str_exn e).

Definition main : M unit :=
  print "🚀 Setting up Spark environment from config/config.yaml...";;
  try_except main_try main_except.

End Script.

(** The two templates are long; [simpl] leaves them folded. *)
#[global] Arguments compose_content : simpl never.
#[global] Arguments env_content : simpl never.

(** ** Reading the artefacts back *)

(** What a run did, by kind of effect. *)
Definition prints (tr : list event) : list string :=
  omap (fun ev => match ev with EvPrint l => Some l | _ => None end) tr.

Definition written (tr : list event) : list (path * string) :=
  omap (fun ev => match ev with EvWrite p t => Some (p, t) | _ => None end) tr.

Definition opened_for_writing (tr : list event) : list path :=
  omap (fun ev => match ev with EvOpen p W => Some p | _ => None end) tr.

Definition created (tr : list event) : list path :=
  omap (fun ev => match ev with EvMkdir p => Some p | _ => None end) tr.

(** The text of the file a path leads to, if it leads to a file. *)
Definition cat (fs : store) (p : path) : option string :=
  match resolve fs p with
  | inl _ => None
  | inr q =>
      match node_at fs q with
      | Some (File c) => Some c
      | _ => None
      end
  end.

(** The path leads to an existing directory. *)
Definition is_dir (fs : store) (p : path) : bool :=
  match resolve fs p with
  | inl _ => false
  | inr q =>
      match node_at fs q with
      | Some Dir => true
      | _ => false
      end
  end.

(** The path does not exist: looking it up reports "no such file or
    directory". *)
Definition absent (fs : store) (p : path) : bool :=
  match resolve fs p with
  | inl ENOENT => true
  | inl ENOTDIR => false
  | inr q =>
      match node_at fs q with
      | None => true
      | Some _ => false
      end
  end.

(** The sixteen keys of the schema, each with the name it has in the
    environment file, in the order of the file. *)
Definition schema : list (string * list string) :=
  [ ("SPARK_VERSION", ["spark"; "version"]);
    ("SPARK_MASTER_MEMORY", ["spark"; "master"; "memory"]);
    ("SPARK_MASTER_CORES", ["spark"; "master"; "cores"]);
    ("SPARK_WORKER_MEMORY", ["spark"; "worker"; "memory"]);
    ("SPARK_WORKER_CORES", ["spark"; "worker"; "cores"]);
    ("SPARK_WORKER_INSTANCES", ["spark"; "worker"; "instances"]);
    ("SPARK_EXECUTOR_MEMORY", ["spark"; "executor"; "memory"]);
    ("SPARK_EXECUTOR_CORES", ["spark"; "executor"; "cores"]);
    ("PYTHON_VERSION", ["python"; "version"]);
    ("JUPYTER_PORT", ["containers"; "jupyter"; "port"]);
    ("SPARK_MASTER_UI_PORT", ["containers"; "spark_master"; "ui_port"]);
    ("SPARK_MASTER_PORT", ["containers"; "spark_master"; "port"]);
    ("SPARK_WORKER_UI_PORT", ["containers"; "spark_worker"; "ui_port"]);
    ("NOTEBOOKS_PATH", ["volumes"; "notebooks_path"]);
    ("DATA_PATH", ["volumes"; "data_path"]);
    ("NETWORK_NAME", ["network"; "name"]) ].

Definition required_keys : list (list string) := map snd schema.

Definition present (config : value) (keys : list string) : bool :=
  match index config keys with
  | inr _ => true
  | inl _ => false
  end.

(** Every key of the schema is there. *)
Definition complete (config : value) : bool :=
  forallb (present config) required_keys.




(** The replacement fields of a line of a template, in order. *)
Definition line_fields (ps : list part) : list (list string) :=
  omap (fun p => match p with Sub keys => Some keys | Lit _ => None end) ps.

(** The replacement fields of a template, in order. *)
Definition fields (tpl : list (list part)) : list (list string) :=
  omap (fun p => match p with Sub keys => Some keys | Lit _ => None end)
    (concat tpl).










(** The value at a key of the schema; [None] stands in where the key is not
    there. *)
Definition value_at (config : value) (keys : list string) : value :=
  match index config keys with
  | inr v => v
  | inl _ => VNone
  end.

(** What a line of a template comes to when all its fields are there. *)
Definition line_text `{Runtime} (config : value) (ps : list part) : string :=
  fold_right
    (fun p r =>
       match p with
       | Lit s => s +:+ r
       | Sub keys => py_str (value_at config keys) +:+ r
       end)
    EmptyString ps.


(** Every entry of [fs] is still there in [fs'], unchanged. *)
Definition grows (fs fs' : store) : Prop :=
  forall p n, node_at fs p = Some n -> node_at fs' p = Some n.

(** The line [create_directories] prints at its end. *)
Definition created_line `{Runtime} (nb dt : string) : string :=
  "✅ Created directories: " +:+ name (joinpath base_dir nb) +:+ ", "
  +:+ name (joinpath base_dir dt).

(** ** Sample inputs *)

Definition sample_with (notebooks_path data_path network_name : value) : value :=
  VDict
    [ ("spark",
        VDict [ ("version", VStr "3.5.0");
                ("master", VDict [("memory", VStr "1g"); ("cores", VInt 1)]);
                ("worker", VDict [("memory", VStr "2g"); ("cores", VInt 2);
                                  ("instances", VInt 1)]);
                ("executor", VDict [("memory", VStr "1g"); ("cores", VInt 1)]) ]);
      ("python", VDict [("version", VStr "3.11")]);
      ("containers",
        VDict [ ("jupyter", VDict [("port", VInt 8888)]);
                ("spark_master", VDict [("port", VInt 7077); ("ui_port", VInt 8080)]);
                ("spark_worker", VDict [("ui_port", VInt 8081)]) ]);
      ("volumes",
        VDict [("notebooks_path", notebooks_path); ("data_path", data_path)]);
      ("network", VDict [("name", network_name)]) ].

Definition sample_config : value :=
  sample_with (VStr "./notebooks") (VStr "./data") (VStr "spark-network").

(** A path below a directory that does not exist yet. *)
Definition nested_config : value :=
  sample_with (VStr "./work/notebooks") (VStr "./data") (VStr "spark-network").

(** A hidden directory: the name starts with a dot, there is no [./]. *)
Definition hidden_config : value :=
  sample_with (VStr ".notebooks") (VStr "./data") (VStr "spark-network").




(** The same network, other volume paths. *)
Definition other_config : value :=
  sample_with (VStr "./nb") (VStr "./store") (VStr "spark-network").

(** No [network] section. *)
Definition partial_config : value :=
  VDict [ ("spark", VDict [("version", VStr "3.5.0")]) ].

Definition sample_runtime : Runtime :=
  {| base_dir := ["srv"; "spark"];
     safe_load := fun text =>
       if String.eqb text "sample" then inr sample_config
       else if String.eqb text "nested" then inr nested_config
       else if String.eqb text "hidden" then inr hidden_config
       else if String.eqb text "partial" then inr partial_config
       else inl "could not parse the document"%string;
     str_dict := fun _ => "{...}"%string;
     str_exn := fun e =>
       match e with
       | KeyError k => "'" +:+ k +:+ "'"
       | TypeError _ => "object is not subscriptable"
       | AttributeError _ => "object has no attribute 'lstrip'"
       | YAMLError msg => msg
       | FileNotFoundError _ => "[Errno 2] No such file or directory"
       | NotADirectoryError _ => "[Errno 20] Not a directory"
       | IsADirectoryError _ => "[Errno 21] Is a directory"
       | FileExistsError _ => "[Errno 17] File exists"
       end%string |}.

(** A checkout with [config/config.yaml] holding [text] and an empty
    [docker/]. *)
Definition checkout (text : string) : store :=
  <[ ["srv"; "spark"; "config"; "config.yaml"] := File text ]>
    (<[ ["srv"; "spark"; "config"] := Dir ]>
       (<[ ["srv"; "spark"; "docker"] := Dir ]>
          (<[ ["srv"; "spark"] := Dir ]>
             (<[ ["srv"] := Dir ]> ∅)))).

(** The same checkout before [config/config.yaml] is written. *)
Definition bare_checkout : store :=
  <[ ["srv"; "spark"; "config"] := Dir ]>
    (<[ ["srv"; "spark"; "docker"] := Dir ]>
       (<[ ["srv"; "spark"] := Dir ]>
          (<[ ["srv"] := Dir ]> ∅))).


(** The checkout of [sample_config] after a first run. *)
Definition provisioned : store :=
  <[ ["srv"; "spark"; "notebooks"] := Dir ]>
    (<[ ["srv"; "spark"; "data"] := Dir ]>
       (<[ ["srv"; "spark"; "config"; "config.yaml"] := File "sample" ]>
          (<[ ["srv"; "spark"; "config"] := Dir ]>
             (<[ ["srv"; "spark"; "docker"] := Dir ]>
                (<[ ["srv"; "spark"] := Dir ]>
                   (<[ ["srv"] := Dir ]> ∅)))))).

(** ** More readers of a run *)

(** The exception of the first field, in order, that cannot be read. *)
Fixpoint first_error (config : value) (fs : list (list string)) : option exn :=
  match fs with
  | [] => None
  | keys :: rest =>
      match index config keys with
      | inl e => Some e
      | inr _ => first_error config rest
      end
  end.

(** Files are opened one at a time, written only while open, and closed
    again; directories are made while no file is open.  [held] is the file
    that is open at this point of the trace. *)
Fixpoint balanced (held : option path) (tr : list event) : bool :=
  match tr with
  | [] => match held with None => true | Some _ => false end
  | EvPrint _ :: tr' => balanced held tr'
  | EvOpen q _ :: tr' =>
      match held with
      | None => balanced (Some q) tr'
      | Some _ => false
      end
  | EvWrite q _ :: tr' =>
      match held with
      | Some q' => if decide (q = q') then balanced held tr' else false
      | None => false
      end
  | EvClose q :: tr' =>
      match held with
      | Some q' => if decide (q = q') then balanced None tr' else false
      | None => false
      end
  | EvMkdir _ :: tr' =>
      match held with
      | None => balanced None tr'
      | Some _ => false
      end
  end.

(** The store the three steps after loading leave behind, each step run on
    what the one before it left, up to the first one that raises. *)
Definition after_steps `{Runtime} (config : value) (fs : store) : store :=
  let o1 := generate_env_file config fs in
  match result_of o1 with
  | inl _ => files o1
  | inr _ =>
      let o2 := generate_docker_compose config (files o1) in
      match result_of o2 with
      | inl _ => files o2
      | inr _ => files (create_directories config (files o2))
      end
  end.

(** An entry the script has no business with: a directory, or a file that
    is named neither [.env] nor [docker-compose.yml]. *)
Definition foreign (p : path) (n : node) : Prop :=
  n = Dir \/ (name p <> ".env" /\ name p <> "docker-compose.yml").


(** * Properties *)

(** ** Running the effects *)

Lemma bind_outcome {A B} (m : M A) (k : A -> M B) fs r fs' tr :
  m fs = Outcome r fs' tr ->
  (m ≫= k) fs =
    match r with
    | inl e => Outcome (inl e) fs' tr
    | inr x =>
        Outcome (result_of (k x fs')) (files (k x fs')) (tr ++ trace (k x fs'))
    end.
Proof.
  intros Hm. unfold mbind, M_bind. rewrite Hm. simpl. now destruct r.
Qed.

Lemma bind_run {A B} (m : M A) (k : A -> M B) fs :
  (m ≫= k) fs =
    match result_of (m fs) with
    | inl e => Outcome (inl e) (files (m fs)) (trace (m fs))
    | inr x =>
        Outcome (result_of (k x (files (m fs)))) (files (k x (files (m fs))))
          (trace (m fs) ++ trace (k x (files (m fs))))
    end.
Proof. reflexivity. Qed.

Lemma outcome_eta {A} (o : outcome A) :
  o = Outcome (result_of o) (files o) (trace o).
Proof. now destruct o. Qed.

Lemma lift_run {A} (r : result A) fs : lift r fs = Outcome r fs [].
Proof. reflexivity. Qed.

Lemma print_run line fs : print line fs = Outcome (inr tt) fs [EvPrint line].
Proof. reflexivity. Qed.

Lemma print_all_run ls fs :
  print_all ls fs = Outcome (inr tt) fs (map EvPrint ls).
Proof.
  revert fs. induction ls as [|l ls IH]; intros fs; [reflexivity|].
  simpl. rewrite (bind_outcome _ _ _ _ _ _ (print_run l fs)).
  now rewrite IH.
Qed.

Lemma prints_app tr1 tr2 : prints (tr1 ++ tr2) = prints tr1 ++ prints tr2.
Proof. apply omap_app. Qed.


Lemma created_app tr1 tr2 : created (tr1 ++ tr2) = created tr1 ++ created tr2.
Proof. apply omap_app. Qed.

Lemma opened_for_writing_app tr1 tr2 :
  opened_for_writing (tr1 ++ tr2)
  = opened_for_writing tr1 ++ opened_for_writing tr2.
Proof. apply omap_app. Qed.

(** ** Lines of text *)
















(** ** The store under path resolution *)

Lemma node_at_insert_ne (fs : store) k n p :
  k <> p -> node_at (<[k := n]> fs) p = node_at fs p.
Proof.
  intros Hne. destruct p as [|c p]; [reflexivity|].
  simpl. now rewrite lookup_insert_ne.
Qed.

Lemma node_at_insert_eq (fs : store) k n :
  k <> [] -> node_at (<[k := n]> fs) k = Some n.
Proof.
  intros Hne. destruct k as [|c k]; [congruence|].
  simpl. now rewrite lookup_insert_eq.
Qed.

(** Writing over something that is not a directory leaves every path that
    could be walked as it was. *)
Lemma walk_insert (fs : store) k n rest : forall cur q,
  node_at fs k <> Some Dir ->
  walk fs cur rest = inr q ->
  walk (<[k := n]> fs) cur rest = inr q.
Proof.
  induction rest as [|c rest IH]; intros cur q Hk Hw; [exact Hw|].
  simpl in *.
  destruct (node_at fs cur) as [[content|]|] eqn:Hcur; try discriminate.
  rewrite node_at_insert_ne, Hcur by (intros ->; congruence).
  now apply IH.
Qed.

Lemma walk_app (fs : store) rest1 rest2 : forall cur,
  walk fs cur (rest1 ++ rest2)
  = match walk fs cur rest1 with
    | inl e => inl e
    | inr q => walk fs q rest2
    end.
Proof.
  induction rest1 as [|c rest1 IH]; intros cur; [reflexivity|].
  simpl. destruct (node_at fs cur) as [[content|]|]; try reflexivity.
  apply IH.
Qed.

(** A path that does not end in [..] resolves to a path with the same last
    component. *)
Lemma resolve_last (fs : store) p c q :
  String.eqb c ".." = false ->
  resolve fs (p ++ [c]) = inr q ->
  exists q', q = q' ++ [c].
Proof.
  unfold resolve. intros Hc. rewrite walk_app.
  destruct (walk fs [] p) as [e|q0]; [discriminate|].
  simpl. destruct (node_at fs q0) as [[content|]|]; try discriminate.
  rewrite Hc. intros [= <-]. now exists q0.
Qed.

Section Facts.
Context `{Runtime}.

(** ** Expressions *)

Lemma getitem_error v k e : getitem v k = inl e -> is_FileNotFoundError e = false.
Proof.
  destruct v; simpl; try (intros [= <-]; reflexivity).
  destruct (assoc k items); [discriminate|]. now intros [= <-].
Qed.

Lemma index_error keys : forall v e,
  index v keys = inl e -> is_FileNotFoundError e = false.
Proof.
  induction keys as [|k keys IH]; intros v e; simpl; [discriminate|].
  destruct (getitem v k) as [e'|v'] eqn:Hg; simpl.
  - intros [= <-]. eapply getitem_error, Hg.
  - apply IH.
Qed.

Lemma str_lstrip_error v chars e :
  str_lstrip v chars = inl e -> is_FileNotFoundError e = false.
Proof. destruct v; simpl; intros [= <-]; reflexivity. Qed.

Lemma strip_field_inv config keys chars r :
  (index config keys ≫= fun v => str_lstrip v chars) = inr r ->
  exists s, index config keys = inr (VStr s) /\ r = lstrip chars s.
Proof.
  destruct (index config keys) as [e|v]; simpl; [discriminate|].
  destruct v; simpl; try discriminate. intros [= <-]. eauto.
Qed.

Lemma fline_error config ps : forall e,
  fline config ps = inl e -> is_FileNotFoundError e = false.
Proof.
  induction ps as [|[s|keys] ps IH]; intros e; simpl; [discriminate| |].
  - destruct (fline config ps) as [e'|r]; simpl; [|discriminate].
    intros [= <-]. now apply IH.
  - destruct (index config keys) as [e'|v] eqn:Hi; simpl.
    + intros [= <-]. eapply index_error, Hi.
    + destruct (fline config ps) as [e'|r]; simpl; [|discriminate].
      intros [= <-]. now apply IH.
Qed.

Lemma fline_present config ps : forall s,
  fline config ps = inr s -> forallb (present config) (line_fields ps) = true.
Proof.
  induction ps as [|[l|keys] ps IH]; intros s; simpl; [reflexivity| |].
  - destruct (fline config ps) as [e'|r]; simpl; [discriminate|].
    intros _. now apply (IH r).
  - unfold present at 1.
    destruct (index config keys) as [e'|v]; simpl; [discriminate|].
    destruct (fline config ps) as [e'|r]; simpl; [discriminate|].
    intros _. now apply (IH r).
Qed.

Lemma flines_error config tpl : forall e,
  flines config tpl = inl e -> is_FileNotFoundError e = false.
Proof.
  induction tpl as [|l tpl IH]; intros e; simpl; [discriminate|].
  destruct (fline config l) as [e'|s] eqn:Hl; simpl.
  - intros [= <-]. eapply fline_error, Hl.
  - destruct (flines config tpl) as [e'|r]; simpl; [|discriminate].
    intros [= <-]. now apply IH.
Qed.

Lemma flines_present config tpl : forall ls,
  flines config tpl = inr ls -> forallb (present config) (fields tpl) = true.
Proof.
  induction tpl as [|l tpl IH]; intros ls; simpl; [reflexivity|].
  destruct (fline config l) as [e'|s] eqn:Hl; simpl; [discriminate|].
  destruct (flines config tpl) as [e'|r]; simpl; [discriminate|].
  intros _. unfold fields. simpl. rewrite omap_app, forallb_app.
  apply andb_true_intro. split.
  - eapply fline_present, Hl.
  - now apply (IH r).
Qed.

(** The environment file reads exactly the keys of the schema. *)
Lemma env_template_fields : fields env_template = required_keys.
Proof. reflexivity. Qed.

Lemma env_content_incomplete config :
  complete config = false ->
  exists e, env_content config = inl e /\ is_FileNotFoundError e = false.
Proof.
  intros Hc. unfold env_content, fstring.
  destruct (flines config env_template) as [e|ls] eqn:Hf; simpl.
  - exists e. split; [reflexivity|]. eapply flines_error, Hf.
  - apply flines_present in Hf. rewrite env_template_fields in Hf.
    unfold complete in Hc. congruence.
Qed.

(** ** Files and directories *)

Lemma open_read_absent fs p :
  absent fs p = true -> open p R fs = Outcome (inl (FileNotFoundError p)) fs [].
Proof.
  unfold absent, open.
  destruct (resolve fs p) as [[|]|q]; simpl; try discriminate; [reflexivity|].
  destruct (node_at fs q) as [[content|]|]; try discriminate. reflexivity.
Qed.

Lemma open_read_cases p fs :
  (exists e, open p R fs = Outcome (inl e) fs []) \/
  (exists q, open p R fs = Outcome (inr q) fs [EvOpen q R]).
Proof.
  unfold open. destruct (resolve fs p) as [e|q]; [left; eauto|].
  destruct (node_at fs q) as [[content|]|]; [right|left..]; eauto.
Qed.

Lemma read_run f fs : read f fs = Outcome (inr (file_text fs f)) fs [].
Proof. reflexivity. Qed.

Lemma load_config_absent fs :
  absent fs config_yaml = true ->
  load_config fs = Outcome (inl (FileNotFoundError config_yaml)) fs [].
Proof.
  intros Ha. unfold load_config, with_open.
  now rewrite (bind_outcome _ _ _ _ _ _ (open_read_absent _ _ Ha)).
Qed.

(** Loading changes nothing; a load that returns has opened and closed the
    file. *)
Lemma load_config_cases fs :
  (exists e, load_config fs = Outcome (inl e) fs []) \/
  (exists e q, load_config fs = Outcome (inl e) fs [EvOpen q R; EvClose q]
               /\ is_FileNotFoundError e = false) \/
  (exists config q,
      load_config fs = Outcome (inr config) fs [EvOpen q R; EvClose q]).
Proof.
  unfold load_config, with_open.
  destruct (open_read_cases config_yaml fs) as [(e & Ho)|(q & Ho)];
    rewrite (bind_outcome _ _ _ _ _ _ Ho); [left; eauto|].
  right. unfold closing.
  rewrite (bind_outcome _ _ _ _ _ _ (read_run q fs)).
  destruct (safe_load (file_text fs q)) as [msg|config]; simpl.
  - left. exists (YAMLError msg), q. now split.
  - right. now exists config, q.
Qed.

Lemma load_config_inv fs config :
  result_of (load_config fs) = inr config ->
  exists q, load_config fs = Outcome (inr config) fs [EvOpen q R; EvClose q].
Proof.
  intros Hr.
  destruct (load_config_cases fs) as [(e & He)|[(e & q & He & _)|(c & q & He)]];
    rewrite He in Hr; simpl in Hr; try discriminate.
  injection Hr as <-. now exists q.
Qed.

(** Opening a file for writing and writing one text to it. *)
Lemma write_file_run p text fs :
  with_open p W (fun f => write f text) fs
  = match resolve fs p with
    | inl e => Outcome (inl (os_error e p)) fs []
    | inr q =>
        match node_at fs q with
        | Some Dir => Outcome (inl (IsADirectoryError p)) fs []
        | _ =>
            Outcome (inr tt) (<[q := File text]> fs)
              [EvOpen q W; EvWrite q text; EvClose q]
        end
    end.
Proof.
  assert (Hw : forall q : path,
             <[q := File (file_text (<[q := File EmptyString]> fs) q +:+ text)]>
               (<[q := File EmptyString]> fs)
             = <[q := File text]> fs).
  { intros q. unfold file_text.
    rewrite lookup_insert_eq, insert_insert_eq. reflexivity. }
  unfold with_open.
  rewrite (bind_outcome _ _ _ _ _ _ (outcome_eta (open p W fs))).
  unfold open.
  destruct (resolve fs p) as [e|q]; simpl; [reflexivity|].
  destruct (node_at fs q) as [[content|]|]; simpl; try reflexivity;
    now rewrite Hw.
Qed.

Lemma mkdir_cases p fs :
  (exists e, mkdir_exist_ok p fs = Outcome (inl e) fs []) \/
  mkdir_exist_ok p fs = Outcome (inr tt) fs [] \/
  (exists q, node_at fs q = None /\
             mkdir_exist_ok p fs = Outcome (inr tt) (<[q := Dir]> fs) [EvMkdir q]).
Proof.
  unfold mkdir_exist_ok.
  destruct (resolve fs p) as [e|q]; [left; eauto|].
  destruct (node_at fs q) as [[content|]|] eqn:Hq; [left; eauto|right; now left|].
  right. right. now exists q.
Qed.

Lemma mkdir_existing p fs :
  is_dir fs p = true -> mkdir_exist_ok p fs = Outcome (inr tt) fs [].
Proof.
  unfold is_dir, mkdir_exist_ok.
  destruct (resolve fs p) as [e|q]; [discriminate|].
  destruct (node_at fs q) as [[content|]|]; try discriminate. reflexivity.
Qed.

(** ** The steps of the script *)

Lemma generate_env_file_run config fs :
  generate_env_file config fs
  = match env_content config with
    | inl e => Outcome (inl e) fs []
    | inr text =>
        match resolve fs env_file with
        | inl e => Outcome (inl (os_error e env_file)) fs []
        | inr q =>
            match node_at fs q with
            | Some Dir => Outcome (inl (IsADirectoryError env_file)) fs []
            | _ =>
                Outcome (inr tt) (<[q := File text]> fs)
                  [EvOpen q W; EvWrite q text; EvClose q;
                   EvPrint "✅ Generated config/.env file"]
            end
        end
    end.
Proof.
  unfold generate_env_file.
  rewrite (bind_outcome _ _ _ _ _ _ (lift_run _ fs)).
  destruct (env_content config) as [e|text]; [reflexivity|].
  rewrite bind_run, write_file_run.
  destruct (resolve fs env_file) as [e|q]; simpl; [reflexivity|].
  destruct (node_at fs q) as [[content|]|]; reflexivity.
Qed.

Lemma generate_docker_compose_run config fs :
  generate_docker_compose config fs
  = match index config ["network"; "name"] with
    | inl e => Outcome (inl e) fs []
    | inr network_name =>
        match resolve fs compose_file with
        | inl e => Outcome (inl (os_error e compose_file)) fs []
        | inr q =>
            match node_at fs q with
            | Some Dir => Outcome (inl (IsADirectoryError compose_file)) fs []
            | _ =>
                Outcome (inr tt) (<[q := File (compose_content network_name)]> fs)
                  [EvOpen q W; EvWrite q (compose_content network_name);
                   EvClose q; EvPrint "✅ Generated docker/docker-compose.yml"]
            end
        end
    end.
Proof.
  unfold generate_docker_compose.
  rewrite (bind_outcome _ _ _ _ _ _ (lift_run _ fs)).
  destruct (index config ["network"; "name"]) as [e|v]; [reflexivity|].
  rewrite bind_run, write_file_run.
  destruct (resolve fs compose_file) as [e|q]; simpl; [reflexivity|].
  destruct (node_at fs q) as [[content|]|]; reflexivity.
Qed.

Lemma grows_refl fs : grows fs fs.
Proof. now intros p n. Qed.

Lemma grows_trans fs1 fs2 fs3 : grows fs1 fs2 -> grows fs2 fs3 -> grows fs1 fs3.
Proof. intros H12 H23 p n Hp. now apply H23, H12. Qed.

Lemma grows_insert_fresh (fs : store) q n :
  node_at fs q = None -> grows fs (<[q := n]> fs).
Proof.
  intros Hq p m Hp. rewrite node_at_insert_ne; [exact Hp|].
  intros ->. congruence.
Qed.

Lemma grows_walk fs fs' rest : forall cur q,
  grows fs fs' -> walk fs cur rest = inr q -> walk fs' cur rest = inr q.
Proof.
  induction rest as [|c rest IH]; intros cur q Hg Hw; [exact Hw|].
  simpl in *.
  destruct (node_at fs cur) as [[content|]|] eqn:Hcur; try discriminate.
  rewrite (Hg _ _ Hcur). now apply IH.
Qed.

Lemma grows_cat fs fs' p text :
  grows fs fs' -> cat fs p = Some text -> cat fs' p = Some text.
Proof.
  unfold cat, resolve. intros Hg.
  destruct (walk fs [] p) as [e|q] eqn:Hw; [discriminate|].
  rewrite (grows_walk _ _ _ _ _ Hg Hw).
  destruct (node_at fs q) as [[content|]|] eqn:Hq; try discriminate.
  now rewrite (Hg _ _ Hq).
Qed.

Lemma mkdir_grows p fs : grows fs (files (mkdir_exist_ok p fs)).
Proof.
  destruct (mkdir_cases p fs) as [(e & He)|[He|(q & Hq & He)]];
    rewrite He; simpl; auto using grows_refl, grows_insert_fresh.
Qed.

#[local] Ltac close_case :=
  repeat split; simpl; eauto 6 using grows_refl, grows_trans; try lia.

(** All the ways [create_directories] can go: it adds at most two
    directories, keeps everything else, and prints its line exactly when it
    returns. *)
Lemma create_directories_cases config fs :
  exists r fs' mk tail,
    create_directories config fs
    = Outcome r fs' (map EvMkdir mk ++ map EvPrint tail) /\
    grows fs fs' /\ length mk <= 2 /\
    match r with
    | inl _ => tail = []
    | inr _ =>
        exists nb dt,
          index config ["volumes"; "notebooks_path"] = inr (VStr nb) /\
          index config ["volumes"; "data_path"] = inr (VStr dt) /\
          tail = [created_line (lstrip "./" nb) (lstrip "./" dt)]
    end.
Proof.
  unfold create_directories.
  rewrite (bind_outcome _ _ _ _ _ _ (lift_run _ fs)).
  destruct (index config ["volumes"; "notebooks_path"] ≫= _) as [e|nb] eqn:Hnb;
    [exists (inl e), fs, [], []; close_case|].
  rewrite (bind_outcome _ _ _ _ _ _ (lift_run _ fs)).
  destruct (index config ["volumes"; "data_path"] ≫= _) as [e|dt] eqn:Hdt;
    [exists (inl e), fs, [], []; close_case|].
  apply strip_field_inv in Hnb as (s & Hs & ->).
  apply strip_field_inv in Hdt as (s0 & Hs0 & ->).
  rewrite bind_run.
  pose proof (mkdir_grows (joinpath base_dir (lstrip "./" s)) fs) as Hg1.
  destruct (mkdir_cases (joinpath base_dir (lstrip "./" s)) fs)
    as [(e & H1)|[H1|(q1 & Hq1 & H1)]]; rewrite H1 in *; simpl in *.
  - exists (inl e), fs, [], []. close_case.
  - rewrite bind_run.
    pose proof (mkdir_grows (joinpath base_dir (lstrip "./" s0)) fs) as Hg2.
    destruct (mkdir_cases (joinpath base_dir (lstrip "./" s0)) fs)
      as [(e & H2)|[H2|(q2 & Hq2 & H2)]]; rewrite H2 in *; simpl in *.
    + exists (inl e), fs, [], []. close_case.
    + exists (inr tt), fs, [], [created_line (lstrip "./" s) (lstrip "./" s0)].
      close_case.
    + exists (inr tt), (<[q2 := Dir]> fs), [q2],
        [created_line (lstrip "./" s) (lstrip "./" s0)].
      close_case.
  - rewrite bind_run.
    pose proof (mkdir_grows (joinpath base_dir (lstrip "./" s0))
                  (<[q1 := Dir]> fs)) as Hg2.
    destruct (mkdir_cases (joinpath base_dir (lstrip "./" s0)) (<[q1 := Dir]> fs))
      as [(e & H2)|[H2|(q2 & Hq2 & H2)]]; rewrite H2 in *; simpl in *.
    + exists (inl e), (<[q1 := Dir]> fs), [q1], []. close_case.
    + exists (inr tt), (<[q1 := Dir]> fs), [q1],
        [created_line (lstrip "./" s) (lstrip "./" s0)].
      close_case.
    + exists (inr tt), (<[q2 := Dir]> (<[q1 := Dir]> fs)), [q1; q2],
        [created_line (lstrip "./" s) (lstrip "./" s0)].
      close_case.
Qed.

(** ** The anatomy of a run *)

Lemma main_try_env_error fs config qc e :
  load_config fs = Outcome (inr config) fs [EvOpen qc R; EvClose qc] ->
  env_content config = inl e ->
  main_try fs
  = Outcome (inl e) fs
      [EvOpen qc R; EvClose qc; EvPrint "✅ Loaded config/config.yaml"].
Proof.
  intros Hload Henv. unfold main_try.
  rewrite (bind_outcome _ _ _ _ _ _ Hload).
  rewrite (bind_outcome _ _ _ _ _ _ (print_run _ fs)).
  rewrite bind_run, generate_env_file_run, Henv. reflexivity.
Qed.

(** What a run does once the configuration is loaded and the text of the
    environment file is there: it stops at the first step that raises and
    keeps what the steps before have done. *)
Lemma main_try_env_ok fs config qc text :
  load_config fs = Outcome (inr config) fs [EvOpen qc R; EvClose qc] ->
  env_content config = inr text ->
  let pre := [EvOpen qc R; EvClose qc; EvPrint "✅ Loaded config/config.yaml"] in
  (exists e, main_try fs = Outcome (inl e) fs pre) \/
  (exists qe,
      resolve fs env_file = inr qe /\ node_at fs qe <> Some Dir /\
      let fs1 := <[qe := File text]> fs in
      let tr1 := pre ++ [EvOpen qe W; EvWrite qe text; EvClose qe;
                         EvPrint "✅ Generated config/.env file"] in
      ((exists e, main_try fs = Outcome (inl e) fs1 tr1) \/
       (exists network_name qd,
           index config ["network"; "name"] = inr network_name /\
           resolve fs1 compose_file = inr qd /\ node_at fs1 qd <> Some Dir /\
           let fs2 := <[qd := File (compose_content network_name)]> fs1 in
           let tr2 := tr1 ++ [EvOpen qd W;
                              EvWrite qd (compose_content network_name);
                              EvClose qd;
                              EvPrint "✅ Generated docker/docker-compose.yml"] in
           exists r fs3 mk tail,
             main_try fs = Outcome r fs3 (tr2 ++ map EvMkdir mk ++ map EvPrint tail) /\
             grows fs2 fs3 /\ length mk <= 2 /\
             match r with
             | inl _ => tail = []
             | inr _ =>
                 exists nb dt,
                   index config ["volumes"; "notebooks_path"] = inr (VStr nb) /\
                   index config ["volumes"; "data_path"] = inr (VStr dt) /\
                   tail = created_line (lstrip "./" nb) (lstrip "./" dt)
                          :: closing_lines
             end))).
Proof.
  intros Hload Henv pre. unfold main_try.
  rewrite (bind_outcome _ _ _ _ _ _ Hload).
  rewrite (bind_outcome _ _ _ _ _ _ (print_run _ fs)).
  rewrite bind_run, generate_env_file_run, Henv.
  destruct (resolve fs env_file) as [e|qe] eqn:Hqe; [left; eauto|].
  destruct (node_at fs qe) as [[content|]|] eqn:Hne; [|left; eauto|];
    (right; exists qe; split; [reflexivity|]; split; [congruence|]);
    cbn [result_of files trace];
    rewrite bind_run, generate_docker_compose_run;
    (destruct (index config ["network"; "name"]) as [e|v] eqn:Hv;
       [left; eauto|]);
    (destruct (resolve (<[qe := File text]> fs) compose_file) as [e|qd] eqn:Hqd;
       [left; eauto|]);
    (destruct (node_at (<[qe := File text]> fs) qd) as [[content'|]|] eqn:Hnd;
       [|left; eauto|]);
    (right; exists v, qd; split; [reflexivity|]; split; [reflexivity|];
     split; [congruence|]);
    cbn [result_of files trace];
    (destruct (create_directories_cases config
                 (<[qd := File (compose_content v)]> (<[qe := File text]> fs)))
       as (r & fs3 & mk & tail & Hcd & Hg & Hlen & Hr));
    rewrite (bind_outcome _ _ _ _ _ _ Hcd);
    (destruct r as [e|[]];
       [subst tail; exists (inl e), fs3, mk, []; close_case
       |destruct Hr as (nb & dt & Hnb & Hdt & ->);
        exists (inr tt), fs3, mk,
          (created_line (lstrip "./" nb) (lstrip "./" dt) :: closing_lines);
        rewrite print_all_run; cbn [result_of files trace];
        split; [|close_case];
        f_equal; simpl; rewrite <- !app_assoc; reflexivity]).
Qed.

(** [main] catches whatever its [try] raises and prints one more line. *)
Lemma main_run fs :
  main fs
  = let o := main_try fs in
    Outcome (inr tt) (files o)
      (EvPrint "🚀 Setting up Spark environment from config/config.yaml..."
       :: trace o
       ++ match result_of o with
          | inr _ => []
          | inl e =>
              [EvPrint (if is_FileNotFoundError e then not_found_line
                        else "❌ Error: " +:+ str_exn e)]
          end).
Proof.
  unfold main. rewrite (bind_outcome _ _ _ _ _ _ (print_run _ fs)).
  unfold try_except, main_except.
  destruct (main_try fs) as [[e|[]] fs' tr]; cbn [result_of files trace].
  - destruct (is_FileNotFoundError e); reflexivity.
  - now rewrite app_nil_r.
Qed.

Lemma generate_docker_compose_written config v fs p t :
  index config ["network"; "name"] = inr v ->
  (p, t) ∈ written (trace (generate_docker_compose config fs)) ->
  t = compose_content v.
Proof.
  intros Hv. rewrite generate_docker_compose_run, Hv.
  destruct (resolve fs compose_file) as [e|q]; simpl; [now intros ?%elem_of_nil|].
  destruct (node_at fs q) as [[content|]|]; simpl;
    try (now intros ?%elem_of_nil);
    now intros [= _ ->]%list_elem_of_singleton.
Qed.

(** ** Rendered text *)



Lemma fields_cons l tpl : fields (l :: tpl) = line_fields l ++ fields tpl.
Proof. unfold fields, line_fields. simpl. apply omap_app. Qed.









(** ** Runs that reach the end *)



Lemma env_file_parts : env_file = (base_dir ++ ["config"]) ++ [".env"].
Proof. reflexivity. Qed.

Lemma compose_file_parts :
  compose_file = (base_dir ++ ["docker"]) ++ ["docker-compose.yml"].
Proof. reflexivity. Qed.

Lemma name_snoc (q : path) c : name (q ++ [c]) = c.
Proof. apply last_last. Qed.

Lemma resolve_env_file fs q :
  resolve fs env_file = inr q -> name q = ".env" /\ q <> [].
Proof.
  rewrite env_file_parts. intros (q' & ->)%resolve_last; [|reflexivity].
  split; [apply name_snoc|]. now destruct q'.
Qed.

Lemma resolve_compose_file fs q :
  resolve fs compose_file = inr q -> name q = "docker-compose.yml" /\ q <> [].
Proof.
  rewrite compose_file_parts. intros (q' & ->)%resolve_last; [|reflexivity].
  split; [apply name_snoc|]. now destruct q'.
Qed.

(** A run whose [try] returns went through every step. *)
Lemma main_try_success fs :
  result_of (main_try fs) = inr tt ->
  exists config qc qe qd text network_name mk nb dt fs3,
    load_config fs = Outcome (inr config) fs [EvOpen qc R; EvClose qc] /\
    env_content config = inr text /\
    index config ["network"; "name"] = inr network_name /\
    index config ["volumes"; "notebooks_path"] = inr (VStr nb) /\
    index config ["volumes"; "data_path"] = inr (VStr dt) /\
    resolve fs env_file = inr qe /\ node_at fs qe <> Some Dir /\
    resolve (<[qe := File text]> fs) compose_file = inr qd /\
    node_at (<[qe := File text]> fs) qd <> Some Dir /\
    grows (<[qd := File (compose_content network_name)]> (<[qe := File text]> fs))
      fs3 /\
    length mk <= 2 /\
    main_try fs
    = Outcome (inr tt) fs3
        ([ EvOpen qc R; EvClose qc; EvPrint "✅ Loaded config/config.yaml";
           EvOpen qe W; EvWrite qe text; EvClose qe;
           EvPrint "✅ Generated config/.env file";
           EvOpen qd W; EvWrite qd (compose_content network_name); EvClose qd;
           EvPrint "✅ Generated docker/docker-compose.yml" ]
         ++ map EvMkdir mk
         ++ map EvPrint (created_line (lstrip "./" nb) (lstrip "./" dt)
                         :: closing_lines)).
Proof.
  intros Hok.
  destruct (load_config_cases fs)
    as [(e & Hl)|[(e & q & Hl & _)|(config & qc & Hl)]];
    try (unfold main_try in Hok;
         rewrite (bind_outcome _ _ _ _ _ _ Hl) in Hok; discriminate).
  destruct (env_content config) as [e|text] eqn:Henv.
  { rewrite (main_try_env_error _ _ _ _ Hl Henv) in Hok. discriminate. }
  destruct (main_try_env_ok _ _ _ _ Hl Henv)
    as [(e & Hm)|(qe & Hqe & Hne & [(e & Hm)|Hrest])];
    try (rewrite Hm in Hok; discriminate).
  destruct Hrest as (v & qd & Hv & Hqd & Hnd & r & fs3 & mk & tail & Hm & Hg
                     & Hlen & Hr).
  rewrite Hm in Hok. cbn [result_of] in Hok. subst r.
  destruct Hr as (nb & dt & Hnb & Hdt & ->).
  exists config, qc, qe, qd, text, v, mk, nb, dt, fs3.
  repeat split; auto.
Qed.



(** ** The claims *)

(** C2. A Configuration that lacks a key of the schema: the run stops in
    [generate_env_file] before anything is opened for writing, no default is
    put in, the store is as it was ([config/.env] and
    [docker/docker-compose.yml] included), and the error is reported. *)
Theorem incomplete_config_aborts fs config :
  result_of (load_config fs) = inr config ->
  complete config = false ->
  let o := main fs in
  result_of o = inr tt /\ files o = fs /\
  opened_for_writing (trace o) = [] /\ written (trace o) = [] /\
  created (trace o) = [] /\
  exists e,
    env_content config = inl e /\
    result_of (main_try fs) = inl e /\
    prints (trace o)
    = [ "🚀 Setting up Spark environment from config/config.yaml...";
        "✅ Loaded config/config.yaml";
        "❌ Error: " +:+ str_exn e ].
Proof.
  intros Hload Hc.
  destruct (load_config_inv _ _ Hload) as (qc & Hl).
  destruct (env_content_incomplete _ Hc) as (e & He & Hfnf).
  intros o. subst o. rewrite main_run.
  rewrite (main_try_env_error _ _ _ _ Hl He). cbn [result_of files trace].
  rewrite Hfnf. repeat split. exists e. repeat split; auto.
Qed.

(** C3. [config/config.yaml] is absent: the run prints the "not found" line,
    touches nothing and returns. *)
Theorem missing_config_file_reported fs :
  absent fs config_yaml = true ->
  main fs
  = Outcome (inr tt) fs
      [ EvPrint "🚀 Setting up Spark environment from config/config.yaml...";
        EvPrint "❌ config/config.yaml not found! Please create it first." ].
Proof.
  intros Ha. rewrite main_run. unfold main_try.
  rewrite (bind_outcome _ _ _ _ _ _ (load_config_absent _ Ha)).
  reflexivity.
Qed.

(** C9. The manifest depends on the Configuration through [network.name]
    only: two Configurations with the same value there make
    [generate_docker_compose] behave alike on every store, and whatever it
    writes, on whatever store, is the fixed template around that name. *)
Theorem manifest_depends_on_network_name c1 c2 v :
  index c1 ["network"; "name"] = inr v ->
  index c2 ["network"; "name"] = inr v ->
  (forall fs, generate_docker_compose c1 fs = generate_docker_compose c2 fs) /\
  (forall fs1 fs2 p1 p2 t1 t2,
      (p1, t1) ∈ written (trace (generate_docker_compose c1 fs1)) ->
      (p2, t2) ∈ written (trace (generate_docker_compose c2 fs2)) ->
      t1 = t2 /\ t1 = compose_content v).
Proof.
  intros H1 H2. split.
  - intros fs. now rewrite !generate_docker_compose_run, H1, H2.
  - intros fs1 fs2 p1 p2 t1 t2 Hw1 Hw2.
    apply (generate_docker_compose_written _ _ _ _ _ H1) in Hw1.
    apply (generate_docker_compose_written _ _ _ _ _ H2) in Hw2.
    now subst.
Qed.

(** C7. Both target directories exist already: [create_directories] raises
    nothing and leaves the store as it is; all it does is print its line. *)
Theorem create_directories_existing_noop config fs nb dt :
  index config ["volumes"; "notebooks_path"] = inr (VStr nb) ->
  index config ["volumes"; "data_path"] = inr (VStr dt) ->
  is_dir fs (target_dir nb) = true ->
  is_dir fs (target_dir dt) = true ->
  create_directories config fs
  = Outcome (inr tt) fs [EvPrint (created_line (lstrip "./" nb) (lstrip "./" dt))].
Proof.
  intros Hnb Hdt Hn Hd. unfold create_directories.
  rewrite (bind_outcome _ _ _ _ _ _ (lift_run _ fs)), Hnb.
  cbn [mbind result_bind str_lstrip].
  rewrite (bind_outcome _ _ _ _ _ _ (lift_run _ fs)), Hdt.
  cbn [mbind result_bind str_lstrip].
  rewrite (bind_outcome _ _ _ _ _ _ (mkdir_existing _ _ Hn)).
  rewrite (bind_outcome _ _ _ _ _ _ (mkdir_existing _ _ Hd)).
  reflexivity.
Qed.



(** C10. A run that reaches the end has loaded the Configuration, then
    opened, written and closed [config/.env], then opened, written and
    closed [docker/docker-compose.yml], and only then created directories
    (none, one or two), each step ending before the next begins. *)
Theorem successful_run_order fs :
  result_of (main_try fs) = inr tt ->
  exists config qc qe qd text network_name mk line,
    result_of (load_config fs) = inr config /\
    env_content config = inr text /\
    index config ["network"; "name"] = inr network_name /\
    resolve fs env_file = inr qe /\
    resolve (<[qe := File text]> fs) compose_file = inr qd /\
    length mk <= 2 /\
    trace (main fs)
    = [ EvPrint "🚀 Setting up Spark environment from config/config.yaml...";
        EvOpen qc R; EvClose qc; EvPrint "✅ Loaded config/config.yaml";
        EvOpen qe W; EvWrite qe text; EvClose qe;
        EvPrint "✅ Generated config/.env file";
        EvOpen qd W; EvWrite qd (compose_content network_name); EvClose qd;
        EvPrint "✅ Generated docker/docker-compose.yml" ]
      ++ map EvMkdir mk
      ++ map EvPrint (line :: closing_lines).
Proof.
  intros Hok.
  destruct (main_try_success _ Hok)
    as (config & qc & qe & qd & text & v & mk & nb & dt & fs3 & Hl & Henv & Hv
        & _ & _ & Hqe & _ & Hqd & _ & _ & Hlen & Hm).
  exists config, qc, qe, qd, text, v, mk,
    (created_line (lstrip "./" nb) (lstrip "./" dt)).
  rewrite Hl, main_run, Hm. cbn [result_of files trace].
  repeat split; auto. now rewrite app_nil_r.
Qed.


End Facts.



(** C6.  [lstrip('./')] takes off every leading dot and slash, not the
    prefix [./]: a path that starts with a dot or with [../] is created
    under another name than the one configured. *)
Theorem create_directories_strips_leading_dots :
  (forall rt : Runtime,
      @target_dir rt ".notebooks" = @base_dir rt ++ ["notebooks"] /\
      @target_dir rt "../shared/nb" = @base_dir rt ++ ["shared"; "nb"]) /\
  index hidden_config ["volumes"; "notebooks_path"] = inr (VStr ".notebooks") /\
  created (trace (@create_directories sample_runtime hidden_config
                    (checkout "hidden")))
  = [ ["srv"; "spark"; "notebooks"]; ["srv"; "spark"; "data"] ] /\
  is_dir (files (@create_directories sample_runtime hidden_config
                   (checkout "hidden")))
    ["srv"; "spark"; ".notebooks"] = false.
Proof.
  split; [intros rt; split; reflexivity|].
  split; [reflexivity|]. split; vm_compute; reflexivity.
Qed.

(** C8.  A failure of a later step that happens to be a
    [FileNotFoundError]: the Configuration is loaded, both files are written,
    the parent of the notebooks directory is missing, and the run reports
    that [config/config.yaml] was not found instead of the failure's own
    message.  The two files stay as written. *)
Theorem missing_parent_reported_as_missing_config :
  let fs := checkout "nested" in
  let failure := FileNotFoundError ["srv"; "spark"; "work"; "notebooks"] in
  let o := @main sample_runtime fs in
  absent fs (@config_yaml sample_runtime) = false /\
  result_of (@load_config sample_runtime fs) = inr nested_config /\
  result_of (@main_try sample_runtime fs) = inl failure /\
  prints (trace o)
  = [ "🚀 Setting up Spark environment from config/config.yaml...";
      "✅ Loaded config/config.yaml";
      "✅ Generated config/.env file";
      "✅ Generated docker/docker-compose.yml";
      "❌ config/config.yaml not found! Please create it first." ] /\
  ~ In ("❌ Error: " +:+ @str_exn sample_runtime failure) (prints (trace o)) /\
  result_of o = inr tt /\
  cat (files o) (@env_file sample_runtime)
  = match @env_content sample_runtime nested_config with
    | inr text => Some text
    | inl _ => None
    end /\
  cat (files o) (@compose_file sample_runtime)
  = Some (@compose_content sample_runtime (VStr "spark-network")).
Proof.
  cbv zeta. repeat split; try (vm_compute; reflexivity).
  vm_compute. intros Hin. repeat destruct Hin as [Hin|Hin]; discriminate || easy.
Qed.

(** ** The theorems on the sample checkout *)

Lemma incomplete_config_aborts_witness :
  let fs := checkout "partial" in
  result_of (@load_config sample_runtime fs) = inr partial_config /\
  complete partial_config = false /\
  files (@main sample_runtime fs) = fs /\
  written (trace (@main sample_runtime fs)) = [].
Proof.
  assert (Hl : result_of (@load_config sample_runtime (checkout "partial"))
               = inr partial_config) by (vm_compute; reflexivity).
  assert (Hc : complete partial_config = false) by (vm_compute; reflexivity).
  pose proof (@incomplete_config_aborts sample_runtime _ _ Hl Hc) as Hw.
  cbv zeta in *. tauto.
Defined.

Lemma missing_config_file_reported_witness :
  absent bare_checkout (@config_yaml sample_runtime) = true /\
  @main sample_runtime bare_checkout
  = Outcome (inr tt) bare_checkout
      [ EvPrint "🚀 Setting up Spark environment from config/config.yaml...";
        EvPrint "❌ config/config.yaml not found! Please create it first." ].
Proof.
  assert (Ha : absent bare_checkout (@config_yaml sample_runtime) = true)
    by (vm_compute; reflexivity).
  split; [exact Ha|].
  exact (@missing_config_file_reported sample_runtime bare_checkout Ha).
Defined.

Lemma manifest_depends_on_network_name_witness :
  index sample_config ["network"; "name"] = inr (VStr "spark-network") /\
  index other_config ["network"; "name"] = inr (VStr "spark-network") /\
  forall fs,
    @generate_docker_compose sample_runtime sample_config fs
    = @generate_docker_compose sample_runtime other_config fs.
Proof.
  assert (H1 : index sample_config ["network"; "name"]
               = inr (VStr "spark-network")) by reflexivity.
  assert (H2 : index other_config ["network"; "name"]
               = inr (VStr "spark-network")) by reflexivity.
  split; [exact H1|]. split; [exact H2|].
  exact (proj1 (@manifest_depends_on_network_name sample_runtime _ _ _ H1 H2)).
Defined.



Lemma create_directories_existing_noop_witness :
  is_dir provisioned (@target_dir sample_runtime "./notebooks") = true /\
  is_dir provisioned (@target_dir sample_runtime "./data") = true /\
  files (@create_directories sample_runtime sample_config provisioned)
  = provisioned.
Proof.
  assert (Hn : is_dir provisioned (@target_dir sample_runtime "./notebooks")
               = true) by (vm_compute; reflexivity).
  assert (Hd : is_dir provisioned (@target_dir sample_runtime "./data") = true)
    by (vm_compute; reflexivity).
  split; [exact Hn|]. split; [exact Hd|].
  now rewrite (@create_directories_existing_noop sample_runtime sample_config
                 provisioned "./notebooks" "./data" eq_refl eq_refl Hn Hd).
Defined.

Lemma successful_run_order_witness :
  result_of (@main_try sample_runtime (checkout "sample")) = inr tt /\
  created (trace (@main sample_runtime (checkout "sample")))
  = [ ["srv"; "spark"; "notebooks"]; ["srv"; "spark"; "data"] ] /\
  exists config,
    result_of (@load_config sample_runtime (checkout "sample")) = inr config.
Proof.
  assert (Hok : result_of (@main_try sample_runtime (checkout "sample")) = inr tt)
    by (vm_compute; reflexivity).
  split; [exact Hok|]. split; [vm_compute; reflexivity|].
  destruct (@successful_run_order sample_runtime _ Hok)
    as (config & _ & _ & _ & _ & _ & _ & _ & Hl & _).
  now exists config.
Defined.


(** * Further properties of the script *)

Section Further.
Context `{Runtime}.

(** ** Loading *)

Lemma node_at_file (fs : store) q c :
  node_at fs q = Some (File c) -> fs !! q = Some (File c) /\ q <> [].
Proof. destruct q; simpl; [discriminate|]. intros Hq. now split. Qed.

Lemma load_config_run fs :
  load_config fs
  = match resolve fs config_yaml with
    | inl e => Outcome (inl (os_error e config_yaml)) fs []
    | inr q =>
        match node_at fs q with
        | None => Outcome (inl (FileNotFoundError config_yaml)) fs []
        | Some Dir => Outcome (inl (IsADirectoryError config_yaml)) fs []
        | Some (File c) =>
            Outcome
              match safe_load c with
              | inl msg => inl (YAMLError msg)
              | inr config => inr config
              end
              fs [EvOpen q R; EvClose q]
        end
    end.
Proof.
  unfold load_config, with_open. rewrite bind_run. unfold open.
  destruct (resolve fs config_yaml) as [e|q]; [reflexivity|].
  destruct (node_at fs q) as [[c|]|] eqn:Hq; try reflexivity.
  cbn [result_of files trace]. unfold closing. rewrite bind_run, read_run.
  cbn [result_of files trace]. unfold file_text.
  destruct (node_at_file _ _ _ Hq) as [-> _].
  now destruct (safe_load c).
Qed.

Lemma main_try_load_error fs e :
  result_of (load_config fs) = inl e ->
  main_try fs = Outcome (inl e) fs (trace (load_config fs)).
Proof.
  intros He. unfold main_try. rewrite bind_run, He.
  destruct (load_config_cases fs) as [(e' & Hl)|[(e' & q & Hl & _)|(c & q & Hl)]];
    now rewrite Hl.
Qed.

(** X1.  A [config/config.yaml] that is there but does not parse: the run
    prints the parser's message as an error, closes the file, writes
    nothing and returns. *)
Theorem unparsable_config_reported fs text msg :
  cat fs config_yaml = Some text ->
  safe_load text = inl msg ->
  exists q,
    main fs
    = Outcome (inr tt) fs
        [ EvPrint "🚀 Setting up Spark environment from config/config.yaml...";
          EvOpen q R; EvClose q;
          EvPrint ("❌ Error: " +:+ str_exn (YAMLError msg)) ].
Proof.
  unfold cat. intros Hcat Hparse.
  destruct (resolve fs config_yaml) as [e|q] eqn:Hq; [discriminate|].
  destruct (node_at fs q) as [[c|]|] eqn:Hn; try discriminate.
  injection Hcat as ->. exists q.
  assert (Hl : load_config fs
               = Outcome (inl (YAMLError msg)) fs [EvOpen q R; EvClose q]).
  { now rewrite load_config_run, Hq, Hn, Hparse. }
  rewrite main_run, (main_try_load_error fs (YAMLError msg))
    by (now rewrite Hl).
  now rewrite Hl.
Qed.

(** X2.  When loading fails, the store is left as it is and the one line
    printed after the banner tells a missing file from every other failure:
    the "not found" line exactly when [config/config.yaml] is absent, and
    the error with its message when the path is a directory, lies below a
    regular file, or holds a document that does not parse. *)
Theorem load_failure_reported fs e :
  result_of (load_config fs) = inl e ->
  result_of (main fs) = inr tt /\
  files (main fs) = fs /\
  written (trace (main fs)) = [] /\
  created (trace (main fs)) = [] /\
  prints (trace (main fs))
  = [ "🚀 Setting up Spark environment from config/config.yaml...";
      if absent fs config_yaml then not_found_line
      else "❌ Error: " +:+ str_exn e ].
Proof.
  intros He. rewrite main_run, (main_try_load_error _ _ He).
  cbn [result_of files trace]. revert He. rewrite load_config_run.
  unfold absent.
  destruct (resolve fs config_yaml) as [[|]|q]; cbn [result_of trace].
  - intros [= <-]. now repeat split.
  - intros [= <-]. now repeat split.
  - destruct (node_at fs q) as [[c|]|]; cbn [result_of trace].
    + destruct (safe_load c) as [msg|config]; [|discriminate].
      intros [= <-]. now repeat split.
    + intros [= <-]. now repeat split.
    + intros [= <-]. now repeat split.
Qed.

(** ** The environment file *)

Lemma first_error_app config l1 l2 :
  first_error config (l1 ++ l2)
  = match first_error config l1 with
    | Some e => Some e
    | None => first_error config l2
    end.
Proof.
  induction l1 as [|keys l1 IH]; [reflexivity|].
  simpl. now destruct (index config keys).
Qed.

Lemma fline_first_error config ps :
  fline config ps
  = match first_error config (line_fields ps) with
    | Some e => inl e
    | None => inr (line_text config ps)
    end.
Proof.
  induction ps as [|[s|keys] ps IH]; [reflexivity| |].
  - cbn [fline]. rewrite IH.
    change (line_fields (Lit s :: ps)) with (line_fields ps).
    now destruct (first_error config (line_fields ps)).
  - cbn [fline].
    change (line_fields (Sub keys :: ps)) with (keys :: line_fields ps).
    cbn [first_error line_text fold_right]. unfold value_at.
    destruct (index config keys) as [e|v]; [reflexivity|].
    cbn [mbind result_bind]. rewrite IH.
    now destruct (first_error config (line_fields ps)).
Qed.

Lemma flines_first_error config tpl :
  flines config tpl
  = match first_error config (fields tpl) with
    | Some e => inl e
    | None => inr (map (line_text config) tpl)
    end.
Proof.
  induction tpl as [|l tpl IH]; [reflexivity|].
  cbn [flines]. rewrite fields_cons, first_error_app, fline_first_error, IH.
  destruct (first_error config (line_fields l)); [reflexivity|].
  now destruct (first_error config (fields tpl)).
Qed.



Lemma first_error_ext c1 c2 fs :
  (forall keys, In keys fs -> index c1 keys = index c2 keys) ->
  first_error c1 fs = first_error c2 fs.
Proof.
  induction fs as [|keys fs IH]; intros Heq; [reflexivity|].
  simpl. rewrite (Heq keys) by now left.
  destruct (index c2 keys); [reflexivity|]. apply IH.
  intros k Hk. apply Heq. now right.
Qed.

Lemma line_text_ext c1 c2 ps :
  (forall keys, In keys (line_fields ps) -> index c1 keys = index c2 keys) ->
  line_text c1 ps = line_text c2 ps.
Proof.
  induction ps as [|[s|keys] ps IH]; intros Heq; [reflexivity| |].
  - cbn [line_text fold_right]. f_equal. now apply IH.
  - cbn [line_text fold_right]. unfold value_at at 1 3.
    rewrite (Heq keys) by now left. f_equal. apply IH.
    intros k Hk. apply Heq. now right.
Qed.

(** X4.  The environment file depends on the Configuration through the
    sixteen keys of the schema only: two Configurations that read alike at
    those keys, whatever else they hold, give the same text or the same
    error, and [generate_env_file] behaves alike on every store. *)
Theorem env_file_depends_on_schema_only c1 c2 :
  (forall keys, In keys required_keys -> index c1 keys = index c2 keys) ->
  env_content c1 = env_content c2 /\
  forall fs, generate_env_file c1 fs = generate_env_file c2 fs.
Proof.
  intros Heq.
  assert (Henv : env_content c1 = env_content c2).
  { unfold env_content, fstring. rewrite !flines_first_error.
    rewrite env_template_fields, (first_error_ext _ _ _ Heq).
    destruct (first_error c2 required_keys); [reflexivity|].
    cbn [mbind result_bind]. do 2 f_equal.
    rewrite <- env_template_fields in Heq.
    revert Heq. generalize env_template.
    induction l as [|l tpl IH]; intros Heq; [reflexivity|].
    cbn [map]. f_equal.
    - apply line_text_ext. intros keys Hin. apply Heq.
      rewrite fields_cons. apply in_or_app. now left.
    - apply IH. intros keys Hin. apply Heq.
      rewrite fields_cons. apply in_or_app. now right. }
  split; [exact Henv|].
  intros fs. now rewrite !generate_env_file_run, Henv.
Qed.

(** ** Writing the two files *)

Lemma resolved_not_root fs p q :
  resolve fs p = inr q -> node_at fs q <> Some Dir -> q <> [].
Proof. intros _ Hq ->. now apply Hq. Qed.

Lemma cat_insert_here fs p q text :
  resolve fs p = inr q -> node_at fs q <> Some Dir ->
  cat (<[q := File text]> fs) p = Some text.
Proof.
  intros Hq Hn. unfold cat, resolve.
  rewrite (walk_insert _ _ _ _ _ _ Hn Hq).
  now rewrite node_at_insert_eq by (eapply resolved_not_root; eauto).
Qed.

Lemma cat_insert_other fs p k n text :
  cat fs p = Some text -> node_at fs k <> Some Dir ->
  resolve fs p <> inr k ->
  cat (<[k := n]> fs) p = Some text.
Proof.
  unfold cat, resolve. intros Hc Hk Hne.
  destruct (walk fs [] p) as [e|q] eqn:Hq; [discriminate|].
  rewrite (walk_insert _ _ _ _ _ _ Hk Hq).
  rewrite node_at_insert_ne by congruence. exact Hc.
Qed.

(** X5.  When [generate_env_file] returns, [config/.env] holds the rendered
    text and nothing else, whatever it held before: the file is replaced,
    not appended to. *)
Theorem generate_env_file_replaces config fs text :
  env_content config = inr text ->
  result_of (generate_env_file config fs) = inr tt ->
  cat (files (generate_env_file config fs)) env_file = Some text.
Proof.
  intros Henv. rewrite generate_env_file_run, Henv.
  destruct (resolve fs env_file) as [e|q] eqn:Hq; [discriminate|].
  destruct (node_at fs q) as [[c|]|] eqn:Hn; try discriminate; intros _;
    cbn [files]; apply cat_insert_here; congruence.
Qed.

(** X6.  When [generate_docker_compose] returns, [docker/docker-compose.yml]
    holds the manifest for the configured network name and nothing else,
    whatever it held before. *)
Theorem generate_docker_compose_replaces config fs v :
  index config ["network"; "name"] = inr v ->
  result_of (generate_docker_compose config fs) = inr tt ->
  cat (files (generate_docker_compose config fs)) compose_file
  = Some (compose_content v).
Proof.
  intros Hv. rewrite generate_docker_compose_run, Hv.
  destruct (resolve fs compose_file) as [e|q] eqn:Hq; [discriminate|].
  destruct (node_at fs q) as [[c|]|] eqn:Hn; try discriminate; intros _;
    cbn [files]; apply cat_insert_here; congruence.
Qed.

(** X7.  No rollback: a run that fails after it has opened a file for
    writing leaves [config/.env] holding the new text. *)
Theorem failed_run_keeps_env_file fs config text e :
  result_of (load_config fs) = inr config ->
  env_content config = inr text ->
  result_of (main_try fs) = inl e ->
  opened_for_writing (trace (main fs)) <> [] ->
  cat (files (main fs)) env_file = Some text.
Proof.
  intros Hload Henv Hfail.
  destruct (load_config_inv _ _ Hload) as (qc & Hl).
  rewrite main_run. cbv zeta. cbn [files trace].
  destruct (main_try_env_ok _ _ _ _ Hl Henv)
    as [(e' & Hm)|(qe & Hqe & Hne & [(e' & Hm)|Hrest])].
  - rewrite Hm. cbn [result_of files trace]. intros Ho. now contradiction Ho.
  - rewrite Hm. cbn [files]. intros _. now apply cat_insert_here.
  - destruct Hrest as (v & qd & Hv & Hqd & Hnd & r & fs3 & mk & tail & Hm & Hg & _).
    rewrite Hm. cbn [files]. intros _.
    apply (grows_cat _ _ _ _ Hg).
    apply cat_insert_other; [now apply cat_insert_here|exact Hnd|].
    unfold resolve. rewrite (walk_insert _ _ _ _ _ _ Hne Hqe).
    intros [= ->].
    destruct (resolve_env_file _ _ Hqe) as [Hn1 _].
    destruct (resolve_compose_file _ _ Hqd) as [Hn2 _].
    rewrite Hn1 in Hn2. discriminate.
Qed.

(** ** The directories *)


Lemma lstrip_fixed chars s :
  (forall c w, s = String c w -> mem_char c chars = false) ->
  lstrip chars s = s.
Proof.
  destruct s as [|c w]; [reflexivity|]. intros Hs. simpl.
  now rewrite (Hs c w eq_refl).
Qed.

Lemma joinpath_relative (p : path) c w :
  Ascii.eqb c "/" = false -> joinpath p (String c w) = p ++ parts (String c w).
Proof.
  intros Hc. unfold joinpath.
  destruct c as [[] [] [] [] [] [] [] []]; try reflexivity; discriminate.
Qed.




(** X9.  For a path that does not itself start with a dot or a slash,
    writing it with or without [./] in front names the same directory:
    exactly the [./] is taken off. *)
Theorem target_dir_dot_slash t :
  (forall c w, t = String c w -> mem_char c "./" = false) ->
  target_dir ("./" +:+ t) = target_dir t /\
  target_dir t = base_dir ++ parts t.
Proof.
  intros Ht. unfold target_dir.
  change (lstrip "./" ("./" +:+ t)) with (lstrip "./" t).
  rewrite (lstrip_fixed _ _ Ht). split; [reflexivity|].
  destruct t as [|c w]; [reflexivity|].
  apply joinpath_relative.
  specialize (Ht c w eq_refl). cbn [mem_char] in Ht.
  apply orb_false_elim in Ht as [_ Hc].
  now apply orb_false_elim in Hc as [Hc _].
Qed.

Lemma create_directories_run config fs :
  create_directories config fs
  = match index config ["volumes"; "notebooks_path"]
          ≫= (fun v => str_lstrip v "./") with
    | inl e => Outcome (inl e) fs []
    | inr nb =>
        match index config ["volumes"; "data_path"]
              ≫= (fun v => str_lstrip v "./") with
        | inl e => Outcome (inl e) fs []
        | inr dt =>
            let o1 := mkdir_exist_ok (joinpath base_dir nb) fs in
            match result_of o1 with
            | inl e => Outcome (inl e) (files o1) (trace o1)
            | inr _ =>
                let o2 := mkdir_exist_ok (joinpath base_dir dt) (files o1) in
                match result_of o2 with
                | inl e => Outcome (inl e) (files o2) (trace o1 ++ trace o2)
                | inr _ =>
                    Outcome (inr tt) (files o2)
                      (trace o1 ++ trace o2 ++ [EvPrint (created_line nb dt)])
                end
            end
        end
    end.
Proof.
  unfold create_directories.
  rewrite (bind_outcome _ _ _ _ _ _ (lift_run _ fs)).
  destruct (index config ["volumes"; "notebooks_path"] ≫= _) as [e|nb];
    [reflexivity|].
  rewrite (bind_outcome _ _ _ _ _ _ (lift_run _ fs)).
  destruct (index config ["volumes"; "data_path"] ≫= _) as [e|dt];
    [reflexivity|].
  cbn [result_of files trace app]. rewrite bind_run. cbv zeta.
  destruct (result_of (mkdir_exist_ok (joinpath base_dir nb) fs)) as [e|[]];
    [reflexivity|].
  rewrite bind_run.
  destruct (result_of (mkdir_exist_ok (joinpath base_dir dt) _)) as [e|[]];
    reflexivity.
Qed.

Lemma mkdir_error p fs e :
  result_of (mkdir_exist_ok p fs) = inl e -> mkdir_exist_ok p fs = Outcome (inl e) fs [].
Proof.
  destruct (mkdir_cases p fs) as [(e' & He)|[He|(q & Hq & He)]];
    rewrite He; cbn [result_of]; congruence.
Qed.

Lemma mkdir_makes p fs :
  result_of (mkdir_exist_ok p fs) = inr tt ->
  is_dir (files (mkdir_exist_ok p fs)) p = true.
Proof.
  unfold mkdir_exist_ok, is_dir.
  destruct (resolve fs p) as [e|q] eqn:Hq; [discriminate|].
  destruct (node_at fs q) as [[c|]|] eqn:Hn; try discriminate; intros _;
    cbn [files].
  - now rewrite Hq, Hn.
  - unfold resolve in *.
    assert (Hne : node_at fs q <> Some Dir) by congruence.
    rewrite (walk_insert _ _ _ _ _ _ Hne Hq).
    rewrite node_at_insert_eq; [reflexivity|].
    intros ->. discriminate.
Qed.

Lemma grows_is_dir fs fs' p :
  grows fs fs' -> is_dir fs p = true -> is_dir fs' p = true.
Proof.
  unfold is_dir, resolve. intros Hg.
  destruct (walk fs [] p) as [e|q] eqn:Hw; [discriminate|].
  rewrite (grows_walk _ _ _ _ _ Hg Hw).
  destruct (node_at fs q) as [[c|]|] eqn:Hq; try discriminate.
  now rewrite (Hg _ _ Hq).
Qed.

(** X10.  When [create_directories] returns, both configured paths lead to
    directories, and every entry the store held before is still there,
    unchanged. *)
Theorem create_directories_makes_both config fs :
  result_of (create_directories config fs) = inr tt ->
  exists nb dt,
    index config ["volumes"; "notebooks_path"] = inr (VStr nb) /\
    index config ["volumes"; "data_path"] = inr (VStr dt) /\
    is_dir (files (create_directories config fs)) (target_dir nb) = true /\
    is_dir (files (create_directories config fs)) (target_dir dt) = true /\
    grows fs (files (create_directories config fs)).
Proof.
  rewrite create_directories_run.
  destruct (index config ["volumes"; "notebooks_path"] ≫= _) as [e|nb] eqn:Hnb;
    [discriminate|].
  destruct (index config ["volumes"; "data_path"] ≫= _) as [e|dt] eqn:Hdt;
    [discriminate|].
  apply strip_field_inv in Hnb as (s & Hs & ->).
  apply strip_field_inv in Hdt as (s0 & Hs0 & ->).
  cbv zeta. fold (target_dir s) (target_dir s0).
  pose proof (mkdir_makes (target_dir s) fs) as H1.
  pose proof (mkdir_grows (target_dir s) fs) as G1.
  destruct (result_of (mkdir_exist_ok (target_dir s) fs)) as [e|[]];
    [discriminate|].
  set (fs1 := files (mkdir_exist_ok (target_dir s) fs)) in *.
  pose proof (mkdir_makes (target_dir s0) fs1) as H2.
  pose proof (mkdir_grows (target_dir s0) fs1) as G2.
  destruct (result_of (mkdir_exist_ok (target_dir s0) fs1)) as [e|[]];
    [discriminate|].
  intros _. cbn [files]. exists s, s0.
  repeat split; auto.
  - eapply grows_is_dir; eauto.
  - eapply grows_trans; eauto.
Qed.


Lemma create_directories_twice config fs :
  files (create_directories config (files (create_directories config fs)))
  = files (create_directories config fs).
Proof.
  rewrite (create_directories_run config fs).
  destruct (index config ["volumes"; "notebooks_path"] ≫= _) as [e|nb] eqn:Hnb.
  { cbn [files]. now rewrite create_directories_run, Hnb. }
  destruct (index config ["volumes"; "data_path"] ≫= _) as [e|dt] eqn:Hdt.
  { cbn [files]. now rewrite create_directories_run, Hnb, Hdt. }
  cbv zeta.
  set (p1 := joinpath base_dir nb). set (p2 := joinpath base_dir dt).
  pose proof (mkdir_makes p1 fs) as H1.
  pose proof (mkdir_error p1 fs) as E1.
  destruct (result_of (mkdir_exist_ok p1 fs)) as [e|[]] eqn:R1.
  { rewrite (E1 e eq_refl). cbn [files].
    rewrite create_directories_run, Hnb, Hdt. cbv zeta. fold p1.
    now rewrite R1, (E1 e eq_refl). }
  specialize (H1 eq_refl).
  set (fs1 := files (mkdir_exist_ok p1 fs)) in *.
  pose proof (mkdir_makes p2 fs1) as H2.
  pose proof (mkdir_error p2 fs1) as E2.
  pose proof (mkdir_grows p2 fs1) as G2.
  destruct (result_of (mkdir_exist_ok p2 fs1)) as [e|[]] eqn:R2.
  { rewrite (E2 e eq_refl). cbn [files].
    rewrite create_directories_run, Hnb, Hdt. cbv zeta. fold p1 p2.
    rewrite (mkdir_existing _ _ H1). cbn [result_of files].
    now rewrite R2, (E2 e eq_refl). }
  specialize (H2 eq_refl). cbn [files].
  set (fs2 := files (mkdir_exist_ok p2 fs1)) in *.
  rewrite create_directories_run, Hnb, Hdt. cbv zeta. fold p1 p2.
  rewrite (mkdir_existing p1 fs2) by (eapply grows_is_dir; eauto).
  cbn [result_of files]. now rewrite (mkdir_existing _ _ H2).
Qed.

(** X12.  [create_directories] is idempotent on the store: run on what it
    left, whether it returned or raised, it leaves that store as it is. *)
Theorem create_directories_idempotent config fs :
  files (create_directories config (files (create_directories config fs)))
  = files (create_directories config fs).
Proof. apply create_directories_twice. Qed.

(** ** The whole run on the store *)

Lemma load_config_files fs : files (load_config fs) = fs.
Proof.
  destruct (load_config_cases fs) as [(e & Hl)|[(e & q & Hl & _)|(c & q & Hl)]];
    now rewrite Hl.
Qed.

(** The store a run leaves is the one its steps leave. *)
Lemma main_files_after fs :
  files (main fs)
  = match result_of (load_config fs) with
    | inl _ => fs
    | inr config => after_steps config fs
    end.
Proof.
  rewrite main_run. cbv zeta. cbn [files]. unfold main_try.
  rewrite bind_run, load_config_files.
  destruct (result_of (load_config fs)) as [e|config]; [reflexivity|].
  cbn [files]. rewrite bind_run, print_run. cbn [result_of files].
  unfold after_steps. rewrite bind_run.
  destruct (result_of (generate_env_file config fs)) as [e|[]]; [reflexivity|].
  cbn [files]. rewrite bind_run.
  destruct (result_of (generate_docker_compose config _)) as [e|[]];
    [reflexivity|].
  cbn [files]. rewrite bind_run.
  destruct (result_of (create_directories config _)) as [e|[]]; [reflexivity|].
  cbn [files]. now rewrite print_all_run.
Qed.

Lemma generate_env_file_keeps config fs p n :
  node_at fs p = Some n -> foreign p n ->
  node_at (files (generate_env_file config fs)) p = Some n.
Proof.
  intros Hp Hf. rewrite generate_env_file_run.
  destruct (env_content config) as [e|text]; [exact Hp|].
  destruct (resolve fs env_file) as [e|q] eqn:Hq; [exact Hp|].
  destruct (resolve_env_file _ _ Hq) as [Hname _].
  destruct (node_at fs q) as [[c|]|] eqn:Hn; cbn [files]; try exact Hp;
    (rewrite node_at_insert_ne; [exact Hp|]);
    intros ->; rewrite Hn in Hp; try discriminate;
    injection Hp as <-; destruct Hf as [Hd|[Hne _]]; [discriminate|auto].
Qed.

Lemma generate_docker_compose_keeps config fs p n :
  node_at fs p = Some n -> foreign p n ->
  node_at (files (generate_docker_compose config fs)) p = Some n.
Proof.
  intros Hp Hf. rewrite generate_docker_compose_run.
  destruct (index config ["network"; "name"]) as [e|v]; [exact Hp|].
  destruct (resolve fs compose_file) as [e|q] eqn:Hq; [exact Hp|].
  destruct (resolve_compose_file _ _ Hq) as [Hname _].
  destruct (node_at fs q) as [[c|]|] eqn:Hn; cbn [files]; try exact Hp;
    (rewrite node_at_insert_ne; [exact Hp|]);
    intros ->; rewrite Hn in Hp; try discriminate;
    injection Hp as <-; destruct Hf as [Hd|[_ Hne]]; [discriminate|auto].
Qed.

Lemma create_directories_grows config fs :
  grows fs (files (create_directories config fs)).
Proof.
  destruct (create_directories_cases config fs)
    as (r & fs' & mk & tail & Hcd & Hg & _).
  now rewrite Hcd.
Qed.

Lemma after_steps_keeps config fs p n :
  node_at fs p = Some n -> foreign p n ->
  node_at (after_steps config fs) p = Some n.
Proof.
  intros Hp Hf. unfold after_steps.
  pose proof (generate_env_file_keeps config fs p n Hp Hf) as H1.
  destruct (result_of (generate_env_file config fs)); [exact H1|].
  pose proof (generate_docker_compose_keeps config _ p n H1 Hf) as H2.
  destruct (result_of (generate_docker_compose config _)); [exact H2|].
  now apply create_directories_grows.
Qed.

Lemma main_keeps fs p n :
  node_at fs p = Some n -> foreign p n ->
  node_at (files (main fs)) p = Some n.
Proof.
  intros Hp Hf. rewrite main_files_after.
  destruct (result_of (load_config fs)); [exact Hp|].
  now apply after_steps_keeps.
Qed.

(** X13.  A run never removes an entry, never turns a directory into
    something else and never changes a file other than [.env] and
    [docker-compose.yml]: whatever else the store held, [config/config.yaml]
    included, is there afterwards as it was, whether the run reached the end
    or not. *)
Theorem main_keeps_other_entries fs p n :
  node_at fs p = Some n ->
  n = Dir \/ (name p <> ".env" /\ name p <> "docker-compose.yml") ->
  node_at (files (main fs)) p = Some n.
Proof. apply main_keeps. Qed.

(** ** Running again *)












(** ** Files held open *)

Lemma balanced_app held tr tr' :
  balanced held tr = true -> balanced None tr' = true ->
  balanced held (tr ++ tr') = true.
Proof.
  revert held. induction tr as [|ev tr IH]; intros held Htr Htr'.
  - destruct held; [discriminate|exact Htr'].
  - destruct ev; cbn [balanced app] in *.
    + now apply IH.
    + destruct held; [discriminate|now apply IH].
    + destruct held as [q'|]; [|discriminate].
      destruct (decide (p = q')); [now apply IH|discriminate].
    + destruct held as [q'|]; [|discriminate].
      destruct (decide (p = q')); [now apply IH|discriminate].
    + destruct held; [discriminate|now apply IH].
Qed.

Lemma balanced_prints ls : balanced None (map EvPrint ls) = true.
Proof. induction ls; auto. Qed.

Lemma balanced_mkdirs mk : balanced None (map EvMkdir mk) = true.
Proof. induction mk; auto. Qed.

Lemma balanced_read q tr :
  balanced None (EvOpen q R :: EvClose q :: tr) = balanced None tr.
Proof. cbn [balanced]. now rewrite decide_True. Qed.

Lemma balanced_write q text tr :
  balanced None (EvOpen q W :: EvWrite q text :: EvClose q :: tr)
  = balanced None tr.
Proof. cbn [balanced]. now rewrite !decide_True. Qed.

Lemma main_try_balanced fs : balanced None (trace (main_try fs)) = true.
Proof.
  destruct (load_config_cases fs) as [(e & Hl)|[(e & q & Hl & _)|(config & qc & Hl)]].
  - unfold main_try. now rewrite (bind_outcome _ _ _ _ _ _ Hl).
  - unfold main_try. rewrite (bind_outcome _ _ _ _ _ _ Hl). cbn [trace].
    now rewrite balanced_read.
  - destruct (env_content config) as [e|text] eqn:Henv.
    { rewrite (main_try_env_error _ _ _ _ Hl Henv). cbn [trace].
      now rewrite balanced_read. }
    destruct (main_try_env_ok _ _ _ _ Hl Henv)
      as [(e & Hm)|(qe & _ & _ & [(e & Hm)|Hrest])].
    + rewrite Hm. cbn [trace]. now rewrite balanced_read.
    + rewrite Hm. cbv zeta. cbn [trace app balanced].
      now rewrite !decide_True.
    + destruct Hrest as (v & qd & _ & _ & _ & r & fs3 & mk & tail & Hm & _).
      rewrite Hm. cbv zeta. cbn [trace app balanced].
      rewrite !decide_True by reflexivity.
      apply balanced_app; [apply balanced_mkdirs|apply balanced_prints].
Qed.

(** X15.  In every run, files are held open one at a time: each file that
    is opened is closed again before the next is opened and before any
    directory is made, also when the run fails in between, and nothing is
    written to a file that is not open. *)
Theorem files_opened_one_at_a_time fs : balanced None (trace (main fs)) = true.
Proof.
  rewrite main_run. cbv zeta. cbn [trace balanced].
  apply balanced_app; [apply main_try_balanced|].
  now destruct (result_of (main_try fs)).
Qed.

(** ** The manifest again *)


End Further.

(** ** The further theorems on the sample checkout *)

Lemma unparsable_config_reported_witness :
  cat (checkout "garbage") (@config_yaml sample_runtime) = Some "garbage" /\
  @safe_load sample_runtime "garbage" = inl "could not parse the document" /\
  prints (trace (@main sample_runtime (checkout "garbage")))
  = [ "🚀 Setting up Spark environment from config/config.yaml...";
      "❌ Error: could not parse the document" ].
Proof.
  assert (Hc : cat (checkout "garbage") (@config_yaml sample_runtime)
               = Some "garbage") by (vm_compute; reflexivity).
  assert (Hp : @safe_load sample_runtime "garbage"
               = inl "could not parse the document") by reflexivity.
  split; [exact Hc|]. split; [exact Hp|].
  destruct (@unparsable_config_reported sample_runtime _ _ _ Hc Hp) as (q & ->).
  reflexivity.
Defined.

Lemma load_failure_reported_witness :
  let fs := <[ ["srv"; "spark"; "config"; "config.yaml"] := Dir ]> bare_checkout in
  result_of (@load_config sample_runtime fs)
  = inl (IsADirectoryError (@config_yaml sample_runtime)) /\
  prints (trace (@main sample_runtime fs))
  = [ "🚀 Setting up Spark environment from config/config.yaml...";
      "❌ Error: [Errno 21] Is a directory" ].
Proof.
  cbv zeta.
  assert (Hl : result_of (@load_config sample_runtime
                            (<[ ["srv"; "spark"; "config"; "config.yaml"] := Dir ]>
                               bare_checkout))
               = inl (IsADirectoryError (@config_yaml sample_runtime)))
    by (vm_compute; reflexivity).
  split; [exact Hl|].
  destruct (@load_failure_reported sample_runtime _ _ Hl) as (_ & _ & _ & _ & ->).
  vm_compute. reflexivity.
Defined.


Lemma env_file_depends_on_schema_only_witness :
  let extended :=
    match sample_config with
    | VDict items => VDict (items ++ [("packages", VOther "['numpy', 'pandas']")])
    | v => v
    end in
  @env_content sample_runtime sample_config = @env_content sample_runtime extended.
Proof.
  cbv zeta.
  apply (@env_file_depends_on_schema_only sample_runtime).
  intros keys Hin.
  repeat (destruct Hin as [<-|Hin]; [reflexivity|]). contradiction.
Defined.

Lemma generate_env_file_replaces_witness :
  let fs := <[ ["srv"; "spark"; "config"; ".env"] := File "OLD=1" ]>
              (checkout "sample") in
  result_of (@generate_env_file sample_runtime sample_config fs) = inr tt /\
  cat fs (@env_file sample_runtime) = Some "OLD=1" /\
  cat (files (@generate_env_file sample_runtime sample_config fs))
    (@env_file sample_runtime)
  = Some (unlines (map (@line_text sample_runtime sample_config)
                     (@env_template))).
Proof.
  cbv zeta.
  assert (Hr : result_of (@generate_env_file sample_runtime sample_config
                            (<[ ["srv"; "spark"; "config"; ".env"] := File "OLD=1" ]>
                               (checkout "sample"))) = inr tt)
    by (vm_compute; reflexivity).
  split; [exact Hr|]. split; [vm_compute; reflexivity|].
  exact (@generate_env_file_replaces sample_runtime sample_config _ _ eq_refl Hr).
Defined.

Lemma generate_docker_compose_replaces_witness :
  result_of (@generate_docker_compose sample_runtime sample_config
               (checkout "sample")) = inr tt /\
  cat (files (@generate_docker_compose sample_runtime sample_config
                (checkout "sample"))) (@compose_file sample_runtime)
  = Some (@compose_content sample_runtime (VStr "spark-network")).
Proof.
  assert (Hr : result_of (@generate_docker_compose sample_runtime sample_config
                            (checkout "sample")) = inr tt)
    by (vm_compute; reflexivity).
  split; [exact Hr|].
  exact (@generate_docker_compose_replaces sample_runtime sample_config _ _
           eq_refl Hr).
Defined.

Lemma failed_run_keeps_env_file_witness :
  result_of (@main_try sample_runtime (checkout "nested"))
  = inl (FileNotFoundError ["srv"; "spark"; "work"; "notebooks"]) /\
  cat (files (@main sample_runtime (checkout "nested"))) (@env_file sample_runtime)
  = Some (unlines (map (@line_text sample_runtime nested_config) env_template)).
Proof.
  assert (Hl : result_of (@load_config sample_runtime (checkout "nested"))
               = inr nested_config) by (vm_compute; reflexivity).
  assert (Hf : result_of (@main_try sample_runtime (checkout "nested"))
               = inl (FileNotFoundError ["srv"; "spark"; "work"; "notebooks"]))
    by (vm_compute; reflexivity).
  split; [exact Hf|].
  apply (@failed_run_keeps_env_file sample_runtime _ _ _ _ Hl eq_refl Hf).
  vm_compute. discriminate.
Defined.

Lemma target_dir_dot_slash_witness :
  @target_dir sample_runtime "./notebooks" = ["srv"; "spark"; "notebooks"] /\
  @target_dir sample_runtime "./notebooks" = @target_dir sample_runtime "notebooks".
Proof.
  assert (Ht : forall c w, "notebooks" = String c w -> mem_char c "./" = false)
    by (intros c w [= <- _]; reflexivity).
  split; [reflexivity|].
  exact (proj1 (@target_dir_dot_slash sample_runtime "notebooks" Ht)).
Defined.

Lemma create_directories_makes_both_witness :
  result_of (@create_directories sample_runtime sample_config (checkout "sample"))
  = inr tt /\
  exists nb dt,
    is_dir (files (@create_directories sample_runtime sample_config
                     (checkout "sample"))) (@target_dir sample_runtime nb) = true /\
    is_dir (files (@create_directories sample_runtime sample_config
                     (checkout "sample"))) (@target_dir sample_runtime dt) = true.
Proof.
  assert (Hr : result_of (@create_directories sample_runtime sample_config
                            (checkout "sample")) = inr tt)
    by (vm_compute; reflexivity).
  split; [exact Hr|].
  destruct (@create_directories_makes_both sample_runtime _ _ Hr)
    as (nb & dt & _ & _ & Hn & Hd & _).
  now exists nb, dt.
Defined.


Lemma main_keeps_other_entries_witness :
  node_at (checkout "sample") ["srv"; "spark"; "config"; "config.yaml"]
  = Some (File "sample") /\
  node_at (files (@main sample_runtime (checkout "sample")))
    ["srv"; "spark"; "config"; "config.yaml"]
  = Some (File "sample").
Proof.
  assert (Hn : node_at (checkout "sample")
                 ["srv"; "spark"; "config"; "config.yaml"]
               = Some (File "sample")) by (vm_compute; reflexivity).
  split; [exact Hn|].
  apply (@main_keeps_other_entries sample_runtime _ _ _ Hn).
  right. split; discriminate.
Defined.

